(** * Face-verification session server: a shallow embedding of
      [backend/server.js] and the properties of its session lifecycle.

    The server keeps every session in one in-memory [Map]; socket handlers
    read and mutate it, a timer sweeps expired sessions.  Handlers are
    embedded as pure functions from the server state to an [Outcome]: the
    new state together with what the handler sent, or the exception it
    threw.  The [upload-image] handler of the repository's two-party server
    is embedded next to them, for comparison. *)

From Stdlib Require Import Floats.
From Stdlib Require Import ZArith List String Ascii Bool Lia.
From Stdlib Require Import Reals Lra.
From stdpp Require Import base option list gmap strings.

Import ListNotations.
Local Open Scope string_scope.

(** ** Numbers

    Face descriptors and distances are JavaScript numbers.  The handlers use
    five operations on them and two literals; the embedding is written once
    over this interface.  [Binary64] is what the server executes (IEEE 754
    doubles); [Exact] reads the same code in real arithmetic, which is the
    reading under which "Euclidean distance" is a mathematical statement. *)

Class JsNumber := {
  num : Type;
  nzero : num;                  (* the literal [0] *)
  nthreshold : num;             (* the literal [0.6] *)
  nadd : num -> num -> num;     (* [+] *)
  nsub : num -> num -> num;     (* [-] *)
  npow2 : num -> num;           (* [Math.pow(_, 2)] *)
  nsqrt : num -> num;           (* [Math.sqrt] *)
  nlt : num -> num -> bool      (* [<] *)
}.

#[export] Instance Binary64 : JsNumber := {|
  num := PrimFloat.float;
  nzero := 0%float;
  nthreshold := 0x1.3333333333333p-1%float;
  nadd := PrimFloat.add;
  nsub := PrimFloat.sub;
  npow2 := fun x => PrimFloat.mul x x;   (* [Math.pow(x, 2)] as the rounded square *)
  nsqrt := PrimFloat.sqrt;
  nlt := PrimFloat.ltb
|}.



(** ** Completion of a call: a returned value or a thrown [Error]. *)

Inductive Completion (A : Type) : Type :=
| Return (a : A)
| Throw (message : string).
Arguments Return {A} a.
Arguments Throw {A} message.

(** The message of the [Error] thrown by [euclideanDistance]. *)
Definition DimensionMismatch : string := "Arrays must have the same length".

(** What [null.length] raises when no descriptor was ever stored. *)
Definition TypeError : string := "TypeError".

Section Distance.
Context {N : JsNumber}.

(** The body of the [for] loop of [euclideanDistance]: [i] walks both
    arrays in lock step (their lengths are equal once the guard passed),
    [sum] is the accumulator. *)
Fixpoint sumLoop (sum : num) (arr1 arr2 : list num) : num :=
  match arr1, arr2 with
  | x :: arr1', y :: arr2' => sumLoop (nadd sum (npow2 (nsub x y))) arr1' arr2'
  | _, _ => sum
  end.

Definition euclideanDistance (arr1 arr2 : list num) : Completion num :=
  if negb (Nat.eqb (length arr1) (length arr2))
  then Throw DimensionMismatch
  else Return (nsqrt (sumLoop nzero arr1 arr2)).

End Distance.

(** ** Strings: [substring(0, 8)] and [toUpperCase] of the session id *)

Definition toUpperCaseAscii (c : ascii) : ascii :=
  let n := nat_of_ascii c in
  if Nat.leb 97 n && Nat.leb n 122 then ascii_of_nat (n - 32) else c.

Fixpoint toUpperCase (s : string) : string :=
  match s with
  | EmptyString => EmptyString
  | String c s' => String (toUpperCaseAscii c) (toUpperCase s')
  end.

(** The textual form of a version 4 UUID, which is what [uuidv4()] of the
    [uuid] package returns: [xxxxxxxx-xxxx-4xxx-yxxx-xxxxxxxxxxxx], 36
    characters, [x] a lower-case hexadecimal digit, [y] one of [8 9 a b]. *)
Definition isHexDigit (c : ascii) : bool :=
  let n := nat_of_ascii c in
  (Nat.leb 48 n && Nat.leb n 57) || (Nat.leb 97 n && Nat.leb n 102).

Definition isUuidChar (position : nat) (c : ascii) : bool :=
  if (Nat.eqb position 8 || Nat.eqb position 13 || Nat.eqb position 18
      || Nat.eqb position 23)%bool
  then Ascii.eqb c "-"
  else if Nat.eqb position 14 then Ascii.eqb c "4"
  else if Nat.eqb position 19
  then (Ascii.eqb c "8" || Ascii.eqb c "9" || Ascii.eqb c "a" || Ascii.eqb c "b")%bool
  else isHexDigit c.

Fixpoint isUuidFrom (position : nat) (s : string) : bool :=
  match s with
  | EmptyString => Nat.eqb position 36
  | String c s' => isUuidChar position c && isUuidFrom (S position) s'
  end.

Definition isUuidV4 (s : string) : bool := isUuidFrom 0 s.

(** Upper-case alphanumeric characters: [0-9] and [A-Z]. *)
Definition isUpperAlnum (c : ascii) : bool :=
  let n := nat_of_ascii c in
  (Nat.leb 48 n && Nat.leb n 57) || (Nat.leb 65 n && Nat.leb n 90).

(** Truthiness of a string that may be absent: [undefined], [null] and the
    empty string are falsy. *)
Definition truthy (x : option string) : bool :=
  match x with
  | Some s => negb (String.eqb s "")
  | None => false
  end.

(** [x || fallback] *)
Definition orElse (x : option string) (fallback : string) : string :=
  if truthy x then default "" x else fallback.

(** ** Data model (the "Session structure" comment of the source) *)

Module Participant.
Record t {N : JsNumber} := mk {
  socketId : string;
  name : string;
  image : option string;
  faceDescriptor : list num;
  matched : bool;
  matchDistance : num;
  timestamp : Z
}.
Arguments mk {N}.
End Participant.

Module Session.
Record t {N : JsNumber} := mk {
  id : string;
  adminId : string;
  adminName : string;
  referenceImage : option string;
  referenceFaceDescriptor : option (list num);
  participants : list Participant.t;
  maxParticipants : nat;
  durationMinutes : Z;
  createdAt : Z
}.
Arguments mk {N}.
End Session.

(** The two properties the handlers hang on a socket object. *)
Module Socket.
Record t := mk {
  sessionId : option string;
  isAdmin : option bool
}.
End Socket.

(** One element of the [participants] array of a [gallery-updated] event. *)
Module GalleryEntry.
Record t {N : JsNumber} := mk {
  name : string;
  image : option string;
  matchDistance : num;
  timestamp : Z
}.
Arguments mk {N}.
End GalleryEntry.

(** The server: the [sessions] map and the sockets currently connected
    ([io.sockets.sockets]). *)
Record Server {N : JsNumber} := mkServer {
  sessions : gmap string Session.t;
  sockets : gmap string Socket.t
}.
Arguments mkServer {N}.

(** Events the server pushes. *)
Inductive Event {N : JsNumber} : Type :=
| ParticipantJoined (participantCount maxParticipants : nat)
| VerificationResult (matched : bool) (distance : num)
    (referenceImage participantImage : option string)
| GalleryUpdated (participants : list GalleryEntry.t)
    (totalParticipants matchedCount : nat)
| ParticipantLeft (participantCount : nat)
| AdminDisconnected.

(** The acknowledgement passed to [callback]. *)
Inductive Reply : Type :=
| Success
| SuccessSession (sessionId : string) (isAdmin : bool)
| Failure (error : string).

(** What a handler sends, in the order it sends it. *)
Inductive Emission {N : JsNumber} : Type :=
| Callback (socket : string) (r : Reply)            (* [callback(r)] *)
| SocketEmit (socket : string) (e : Event)          (* [socket.emit] *)
| IoTo (room : string) (e : Event)                  (* [io.to(room).emit] *)
| SocketTo (socket room : string) (e : Event).      (* [socket.to(room).emit] *)

(** A handler either runs to its end or throws before it changed anything. *)
Inductive Outcome {N : JsNumber} : Type :=
| Done (srv : Server) (out : list Emission)
| Threw (message : string).

(** The error strings of the acknowledgements, under the names the
    specification gives to the error kinds. *)
Definition SessionNotFound : string := "Session not found".
Definition SessionFull : string := "Session is full".
Definition SessionFullOnJoin : string := "Session is full (max 10 participants)".
Definition NotAuthorized : string := "Only session creator can upload reference image".
Definition ReferenceNotReady : string :=
  "Session host has not uploaded reference image yet".

(** ** The handlers *)

Section Handlers.
Context {N : JsNumber}.

Definition setSessions (srv : Server) (m : gmap string Session.t) : Server :=
  mkServer m (sockets srv).

Definition setSocket (srv : Server) (socket : string) (d : Socket.t) : Server :=
  mkServer (sessions srv) (<[socket := d]> (sockets srv)).

(** [session.referenceImage = image; session.referenceFaceDescriptor = ...] *)
Definition setReference (session : Session.t) (image : option string)
    (faceDescriptor : list num) : Session.t :=
  Session.mk (Session.id session) (Session.adminId session)
    (Session.adminName session) image (Some faceDescriptor)
    (Session.participants session) (Session.maxParticipants session)
    (Session.durationMinutes session) (Session.createdAt session).

(** An update of [session.participants] ([push], or assignment of the
    filtered array). *)
Definition setParticipants (session : Session.t)
    (participants : list Participant.t) : Session.t :=
  Session.mk (Session.id session) (Session.adminId session)
    (Session.adminName session) (Session.referenceImage session)
    (Session.referenceFaceDescriptor session) participants
    (Session.maxParticipants session)
    (Session.durationMinutes session) (Session.createdAt session).

(** [uuidv4().substring(0, 8).toUpperCase()]; [uuid] is the string
    [uuidv4()] returned. *)
Definition newSessionId (uuid : string) : string :=
  toUpperCase (String.substring 0 8 uuid).

(** [socket.on('create-session', ({ durationMinutes = 30 }, callback) => ...)] *)
Definition create_session (srv : Server) (socket : string)
    (durationMinutes : option Z) (uuid : string) (now : Z) : Outcome :=
  let durationMinutes := default 30%Z durationMinutes in
  let sessionId := newSessionId uuid in
  let session := Session.mk sessionId socket "" None None [] 10 durationMinutes now in
  let srv := setSessions srv (<[sessionId := session]> (sessions srv)) in
  let srv := setSocket srv socket (Socket.mk (Some sessionId) (Some true)) in
  Done srv [Callback socket (SuccessSession sessionId true)].

(** [socket.on('join-session', (sessionId, callback) => ...)] *)
Definition join_session (srv : Server) (socket : string) (sessionId : string)
    : Outcome :=
  match sessions srv !! sessionId with
  | None => Done srv [Callback socket (Failure SessionNotFound)]
  | Some session =>
      if Nat.leb (Session.maxParticipants session)
                 (length (Session.participants session))
      then Done srv [Callback socket (Failure SessionFullOnJoin)]
      else
        let srv := setSocket srv socket (Socket.mk (Some sessionId) (Some false)) in
        Done srv
          [Callback socket (SuccessSession sessionId false);
           IoTo (Session.adminId session)
             (ParticipantJoined (length (Session.participants session))
                                (Session.maxParticipants session))]
  end.

(** [socket.on('upload-reference-image', ...)] *)
Definition upload_reference_image (srv : Server) (socket : string)
    (sessionId : string) (image : option string) (faceDescriptor : list num)
    : Outcome :=
  match sessions srv !! sessionId with
  | None => Done srv [Callback socket (Failure SessionNotFound)]
  | Some session =>
      if negb (String.eqb (Session.adminId session) socket)
      then Done srv [Callback socket (Failure NotAuthorized)]
      else
        let session := setReference session image faceDescriptor in
        Done (setSessions srv (<[sessionId := session]> (sessions srv)))
             [Callback socket Success]
  end.

(** The projection of a participant in a [gallery-updated] event. *)
Definition galleryEntry (p : Participant.t) : GalleryEntry.t :=
  GalleryEntry.mk (Participant.name p) (Participant.image p)
    (Participant.matchDistance p) (Participant.timestamp p).

(** The payload of [gallery-updated] built from the participants array. *)
Definition galleryUpdated (participants : list Participant.t) : Event :=
  GalleryUpdated
    (map galleryEntry (List.filter Participant.matched participants))
    (length participants)
    (length (List.filter Participant.matched participants)).

(** [socket.on('upload-participant-image', ...)]; [now] is [new Date()]. *)
Definition upload_participant_image (srv : Server) (socket : string)
    (sessionId : string) (image : option string) (faceDescriptor : list num)
    (name : option string) (now : Z) : Outcome :=
  match sessions srv !! sessionId with
  | None => Done srv [Callback socket (Failure SessionNotFound)]
  | Some session =>
      if negb (truthy (Session.referenceImage session))
      then Done srv [Callback socket (Failure ReferenceNotReady)]
      else if Nat.leb (Session.maxParticipants session)
                      (length (Session.participants session))
      then Done srv [Callback socket (Failure SessionFull)]
      else
        let distance :=
          match Session.referenceFaceDescriptor session with
          | Some reference => euclideanDistance reference faceDescriptor
          | None => Throw TypeError
          end in
        match distance with
        | Throw message => Threw message
        | Return distance =>
            let threshold := nthreshold in
            let matched := nlt distance threshold in
            let participant :=
              Participant.mk socket (orElse name "Anonymous")
                image faceDescriptor matched distance now in
            let participants := (Session.participants session ++ [participant])%list in
            let session := setParticipants session participants in
            Done (setSessions srv (<[sessionId := session]> (sessions srv)))
              ([Callback socket Success;
                SocketEmit socket
                  (VerificationResult matched distance
                     (if matched then Session.referenceImage session else None)
                     image)]
               ++ (if matched
                   then [IoTo (Session.adminId session) (galleryUpdated participants)]
                   else []))%list
        end
  end.

(** [socket.on('disconnect', ...)].  When the handler runs the socket is
    no longer in [io.sockets.sockets], so an administrator who disconnects
    already counts as gone in the final emptiness test. *)
Definition disconnect (srv : Server) (socket : string) : Outcome :=
  let connected := delete socket (sockets srv) in
  let sessionId := (sockets srv !! socket) ≫= Socket.sessionId in
  if negb (truthy sessionId) then Done (mkServer (sessions srv) connected) [] else
  let sessionId := default "" sessionId in
  match sessions srv !! sessionId with
  | None => Done (mkServer (sessions srv) connected) []
  | Some session =>
      let isAdmin := String.eqb (Session.adminId session) socket in
      let participants :=
        if isAdmin then Session.participants session
        else List.filter
               (fun p => negb (String.eqb (Participant.socketId p) socket))
               (Session.participants session) in
      let out :=
        if isAdmin then [SocketTo socket sessionId AdminDisconnected]
        else [IoTo (Session.adminId session) (ParticipantLeft (length participants))] in
      let session := setParticipants session participants in
      let stored := <[sessionId := session]> (sessions srv) in
      let adminGone :=
        match connected !! Session.adminId session with
        | Some _ => false
        | None => true
        end in
      if Nat.eqb (length participants) 0 && adminGone
      then Done (mkServer (delete sessionId stored) connected) out
      else Done (mkServer stored connected) out
  end.

(** [(session.durationMinutes || 30) * 60 * 1000]: a duration of [0] is
    falsy and counts as thirty minutes. *)
Definition sessionDuration (session : Session.t) : Z :=
  ((if Z.eqb (Session.durationMinutes session) 0 then 30
    else Session.durationMinutes session) * 60 * 1000)%Z.

(** [now - session.createdAt > sessionDuration] *)
Definition expired (now : Z) (session : Session.t) : bool :=
  Z.ltb (sessionDuration session) (now - Session.createdAt session).

(** The callback of [setInterval(..., 60 * 1000)]; [now] is [Date.now()]. *)
Definition cleanup (srv : Server) (now : Z) : Server :=
  setSessions srv (filter (fun kv => expired now kv.2 = false) (sessions srv)).




(** ** The server as a transition system *)

Inductive Request : Type :=
| CreateSession (durationMinutes : option Z) (uuid : string) (now : Z)
| JoinSession (sessionId : string)
| UploadReferenceImage (sessionId : string) (image : option string)
    (faceDescriptor : list num)
| UploadParticipantImage (sessionId : string) (image : option string)
    (faceDescriptor : list num) (name : option string) (now : Z).

Inductive Input : Type :=
| Connection (socket : string)
| FromSocket (socket : string) (r : Request)
| Disconnect (socket : string)
| Timer (now : Z).

Definition handle (srv : Server) (socket : string) (r : Request) : Outcome :=
  match r with
  | CreateSession durationMinutes uuid now =>
      create_session srv socket durationMinutes uuid now
  | JoinSession sessionId => join_session srv socket sessionId
  | UploadReferenceImage sessionId image faceDescriptor =>
      upload_reference_image srv socket sessionId image faceDescriptor
  | UploadParticipantImage sessionId image faceDescriptor name now =>
      upload_participant_image srv socket sessionId image faceDescriptor name now
  end.

(** Only a connected socket delivers requests. *)
Definition step (srv : Server) (i : Input) : Outcome :=
  match i with
  | Connection socket => Done (setSocket srv socket (Socket.mk None None)) []
  | FromSocket socket r =>
      match sockets srv !! socket with
      | Some _ => handle srv socket r
      | None => Done srv []
      end
  | Disconnect socket => disconnect srv socket
  | Timer now => Done (cleanup srv now) []
  end.

(** A run over a list of inputs, collecting what was sent.  A handler that
    throws has changed nothing; the run goes on from the same state (if the
    exception ends the process instead, what is sent is a prefix of this). *)
Fixpoint run (srv : Server) (inputs : list Input) : Server * list Emission :=
  match inputs with
  | [] => (srv, [])
  | i :: inputs =>
      match step srv i with
      | Done srv' out =>
          let (final, out') := run srv' inputs in (final, (out ++ out')%list)
      | Threw _ => run srv inputs
      end
  end.

Definition emptyServer : Server := mkServer ∅ ∅.

End Handlers.

(** ** Invariant of the participants arrays

    [matched] is computed once, at upload time, from [matchDistance]; no
    handler writes either field afterwards. *)

Section Invariant.
Context {N : JsNumber}.

Definition flagAgrees (p : Participant.t) : Prop :=
  Participant.matched p = nlt (Participant.matchDistance p) nthreshold.

Definition coherent (srv : Server) : Prop :=
  map_Forall (fun _ session => Forall flagAgrees (Session.participants session))
             (sessions srv).

(** The payload of an emission that is a [gallery-updated] event. *)
Definition isGalleryUpdated (e : Emission) : option (list GalleryEntry.t * nat * nat) :=
  match e with
  | SocketEmit _ (GalleryUpdated g t c)
  | IoTo _ (GalleryUpdated g t c)
  | SocketTo _ _ (GalleryUpdated g t c) => Some (g, t, c)
  | _ => None
  end.

End Invariant.

(** ** The two-party variant of the server

    The repository carries a second server, for sessions of two users; its
    [upload-image] handler is the counterpart of [upload-participant-image].
    Only its update of [session.users] is embedded here. *)

Module TwoParty.

Record User {N : JsNumber} := mkUser {
  socketId : string;
  image : option string;
  faceDescriptor : list num;
  ready : bool
}.
Arguments mkUser {N}.

Section UploadImage.
Context {N : JsNumber}.

(** [session.users.findIndex(u => u.socketId === socket.id)]; [None] is -1. *)
Fixpoint findIndex (socket : string) (users : list User) : option nat :=
  match users with
  | [] => None
  | u :: users' =>
      if String.eqb (socketId u) socket then Some 0
      else option_map S (findIndex socket users')
  end.

(** The users array after [upload-image] from [socket], or [None] when the
    handler answers "Session is full". *)
Definition upload_image (users : list User) (socket : string)
    (image : option string) (faceDescriptor : list num) : option (list User) :=
  match findIndex socket users with
  | Some existingUserIndex =>
      Some (<[existingUserIndex := mkUser socket image faceDescriptor true]> users)
  | None =>
      if Nat.leb 2 (length users) then None
      else Some (users ++ [mkUser socket image faceDescriptor true])%list
  end.

End UploadImage.

(** *** The rest of the two-party server *)

Record Session {N : JsNumber} := mkSession {
  id : string;
  users : list User;
  matched : option bool;
  createdAt : Z
}.
Arguments mkSession {N}.

(** The [sessions] map, and for each connected socket its [sessionId]
    property. *)
Record Server {N : JsNumber} := mkServer {
  sessions : gmap string Session;
  sockets : gmap string (option string)
}.
Arguments mkServer {N}.

Inductive Event {N : JsNumber} : Type :=
| UserJoined (userCount : nat)
| UserReady (readyCount totalUsers : nat)
| ComparisonResult (matched : bool) (distance : num)
    (images : option (option string * option string))
| UserLeft (userCount : nat).

Inductive Reply : Type :=
| Ok
| OkSession (sessionId : string)
| Error (error : string).

(** What a handler does to the outside, in order; [SetTimeoutDelete] is
    [setTimeout(() => sessions.delete(sessionId), delay)]. *)
Inductive Effect {N : JsNumber} : Type :=
| Callback (socket : string) (r : Reply)
| IoTo (room : string) (e : Event)
| SocketTo (socket room : string) (e : Event)
| SetTimeoutDelete (delay : Z) (sessionId : string).

(** A handler runs to its end, or throws after it did part of its work. *)
Inductive Outcome {N : JsNumber} : Type :=
| Done (srv : Server) (out : list Effect)
| Threw (srv : Server) (out : list Effect) (message : string).

Section Server.
Context {N : JsNumber}.

(** [socket.on('create-session', (callback) => ...)] *)
Definition create_session (srv : Server) (socket : string) (uuid : string)
    (now : Z) : Outcome :=
  let sessionId := toUpperCase (String.substring 0 8 uuid) in
  Done (mkServer (<[sessionId := mkSession sessionId [] None now]> (sessions srv))
                 (<[socket := Some sessionId]> (sockets srv)))
       [Callback socket (OkSession sessionId)].

(** [socket.on('join-session', (sessionId, callback) => ...)] *)
Definition join_session (srv : Server) (socket sessionId : string) : Outcome :=
  match sessions srv !! sessionId with
  | None => Done srv [Callback socket (Error "Session not found")]
  | Some session =>
      if Nat.leb 2 (length (users session))
      then Done srv [Callback socket (Error "Session is full")]
      else Done (mkServer (sessions srv) (<[socket := Some sessionId]> (sockets srv)))
             [Callback socket (OkSession sessionId);
              SocketTo socket sessionId (UserJoined (length (users session) + 1))]
  end.

(** [compareFaces(sessionId)] *)
Definition compareFaces (srv : Server) (sessionId : string) : Outcome :=
  match sessions srv !! sessionId with
  | None => Done srv []
  | Some session =>
      match users session with
      | [user1; user2] =>
          match euclideanDistance (faceDescriptor user1) (faceDescriptor user2) with
          | Throw message => Threw srv [] message
          | Return distance =>
              let threshold := nthreshold in
              let matched := nlt distance threshold in
              let session :=
                mkSession (id session) (users session) (Some matched)
                  (createdAt session) in
              Done (mkServer (<[sessionId := session]> (sessions srv)) (sockets srv))
                [IoTo sessionId
                   (ComparisonResult matched distance
                      (if matched then Some (image user1, image user2) else None));
                 SetTimeoutDelete 30000 sessionId]
          end
      | _ => Done srv []
      end
  end.

(** [socket.on('upload-image', ...)] *)
Definition upload_image_handler (srv : Server) (socket sessionId : string)
    (image : option string) (faceDescriptor : list num) : Outcome :=
  match sessions srv !! sessionId with
  | None => Done srv [Callback socket (Error "Session not found")]
  | Some session =>
      match upload_image (users session) socket image faceDescriptor with
      | None => Done srv [Callback socket (Error "Session is full")]
      | Some users =>
          let session :=
            mkSession (id session) users (matched session) (createdAt session) in
          let srv := mkServer (<[sessionId := session]> (sessions srv)) (sockets srv) in
          let out :=
            [Callback socket Ok;
             IoTo sessionId
               (UserReady (length (List.filter ready users)) (length users))] in
          if Nat.eqb (length users) 2 && forallb ready users
          then match compareFaces srv sessionId with
               | Done srv out' => Done srv (out ++ out')%list
               | Threw srv out' message => Threw srv (out ++ out')%list message
               end
          else Done srv out
      end
  end.

(** [socket.on('disconnect', ...)] *)
Definition disconnect (srv : Server) (socket : string) : Outcome :=
  let connected := delete socket (sockets srv) in
  let sessionId := (sockets srv !! socket) ≫= (fun sessionId => sessionId) in
  if negb (truthy sessionId) then Done (mkServer (sessions srv) connected) [] else
  let sessionId := default "" sessionId in
  match sessions srv !! sessionId with
  | None => Done (mkServer (sessions srv) connected) []
  | Some session =>
      let users :=
        List.filter (fun u => negb (String.eqb (socketId u) socket))
                    (users session) in
      let session :=
        mkSession (id session) users (matched session) (createdAt session) in
      let stored := <[sessionId := session]> (sessions srv) in
      let out := [IoTo sessionId (UserLeft (length users))] in
      if Nat.eqb (length users) 0
      then Done (mkServer (delete sessionId stored) connected) out
      else Done (mkServer stored connected) out
  end.

(** The sweep: sessions older than ten minutes go. *)
Definition cleanup (srv : Server) (now : Z) : Server :=
  mkServer
    (filter (fun kv => Z.ltb (10 * 60 * 1000) (now - createdAt kv.2) = false)
            (sessions srv))
    (sockets srv).

(** The callback installed by [compareFaces]. *)
Definition destroy (srv : Server) (sessionId : string) : Server :=
  mkServer (delete sessionId (sessions srv)) (sockets srv).

Inductive Input : Type :=
| Connection (socket : string)
| CreateSession (socket uuid : string) (now : Z)
| JoinSession (socket sessionId : string)
| UploadImage (socket sessionId : string) (image : option string)
    (faceDescriptor : list num)
| Disconnect (socket : string)
| Timer (now : Z)
| Timeout (sessionId : string).

Definition step (srv : Server) (i : Input) : Outcome :=
  match i with
  | Connection socket =>
      Done (mkServer (sessions srv) (<[socket := None]> (sockets srv))) []
  | CreateSession socket uuid now => create_session srv socket uuid now
  | JoinSession socket sessionId => join_session srv socket sessionId
  | UploadImage socket sessionId image faceDescriptor =>
      upload_image_handler srv socket sessionId image faceDescriptor
  | Disconnect socket => disconnect srv socket
  | Timer now => Done (cleanup srv now) []
  | Timeout sessionId => Done (destroy srv sessionId) []
  end.

(** The state and the effects of an outcome, thrown or not. *)
Definition stateOf (o : Outcome) : Server :=
  match o with
  | Done srv _ | Threw srv _ _ => srv
  end.

Definition effectsOf (o : Outcome) : list Effect :=
  match o with
  | Done _ out | Threw _ out _ => out
  end.

Fixpoint run (srv : Server) (inputs : list Input) : Server * list Effect :=
  match inputs with
  | [] => (srv, [])
  | i :: inputs =>
      let o := step srv i in
      let (final, out) := run (stateOf o) inputs in
      (final, (effectsOf o ++ out)%list)
  end.

Definition emptyServer : Server := mkServer ∅ ∅.

End Server.
End TwoParty.

(** ** The health endpoint *)

Section Health.
Context {N : JsNumber}.

(** The body of the handler of [app.get('/health', ...)]:
    [res.json({ status: 'ok', sessions: sessions.size })].  Only the body is
    embedded.  The route is registered last: the rate limiter runs before
    it, and when [NODE_ENV] is [production] the catch-all [app.get('*')],
    registered earlier, answers every GET with the front end's index page,
    so that this handler is not reached. *)
Definition health (srv : Server) : string * nat := ("ok", size (sessions srv)).

(** Whether an emission is an acknowledgement. *)
Definition isCallback (e : Emission) : bool :=
  match e with
  | Callback _ _ => true
  | _ => false
  end.

(** [session.participants.filter(p => p.socketId !== socket.id)] *)
Definition withoutSocket (socket : string) (participants : list Participant.t)
    : list Participant.t :=
  List.filter (fun p => negb (String.eqb (Participant.socketId p) socket))
              participants.

End Health.

(** ** A concrete run, in binary64

    One administrator [owner] opens a thirty-minute session at time 1000
    and uploads the reference descriptor [0, 0, 0]; participant [A] joins
    and uploads [0, 0, 0.125], at distance 0.125 from the reference. *)

Definition uuid1 : string := "3f2a9c1e-7b4d-4e8a-9c1f-5d2e6a7b8c90".
Definition uuid2 : string := "3f2a9c1e-0000-4000-8000-000000000000".
Definition session1 : string := "3F2A9C1E".

Definition opened : list (@Input Binary64) :=
  [ Connection "owner"; Connection "A"; Connection "B";
    FromSocket "owner" (CreateSession (Some 30%Z) uuid1 1000);
    FromSocket "owner"
      (UploadReferenceImage session1 (Some "reference.png") [0; 0; 0]%float);
    FromSocket "A" (JoinSession session1);
    FromSocket "A"
      (UploadParticipantImage session1 (Some "a.png") [0; 0; 0.125]%float
         (Some "Ann") 2000) ].

(** A later matching upload by a third socket. *)
Definition later : list (@Input Binary64) :=
  [ Connection "C";
    FromSocket "C"
      (UploadParticipantImage session1 (Some "c.png") [0; 0; 0]%float None 4000) ].

(** [A], whose first upload matched, uploads a second descriptor, at
    distance [sqrt 75] from the reference. *)
Definition secondUpload : @Input Binary64 :=
  FromSocket "A"
    (UploadParticipantImage session1 (Some "a2.png") [5; 5; 5]%float
       (Some "Ann") 3000).

Definition reuploaded : list (@Input Binary64) := (opened ++ [secondUpload])%list.

(** Ten sockets each upload once, which fills the session. *)
Definition tenSockets : list string :=
  ["p0"; "p1"; "p2"; "p3"; "p4"; "p5"; "p6"; "p7"; "p8"; "p9"].

Definition filled : list (@Input Binary64) :=
  ([ Connection "owner";
     FromSocket "owner" (CreateSession (Some 30%Z) uuid1 1000);
     FromSocket "owner"
       (UploadReferenceImage session1 (Some "reference.png") [0; 0; 0]%float) ]
   ++ flat_map
        (fun socket =>
           [ Connection socket;
             FromSocket socket
               (UploadParticipantImage session1 (Some "p.png")
                  [0; 0; 0.125]%float None 2000) ])
        tenSockets)%list.

(** A two-party session: [u1] creates it and uploads, [u2] joins. *)
Definition duo : list (@TwoParty.Input Binary64) :=
  [ TwoParty.Connection "u1"; TwoParty.Connection "u2";
    TwoParty.CreateSession "u1" uuid1 1000;
    TwoParty.JoinSession "u2" session1;
    TwoParty.UploadImage "u1" session1 (Some "one.png") [0; 0; 0]%float ].

(** Then [u2] uploads, which triggers the comparison, and uploads again. *)
Definition duoCompared : list (@TwoParty.Input Binary64) :=
  (duo ++ [ TwoParty.UploadImage "u2" session1 (Some "two.png")
              [0; 0; 0.125]%float;
            TwoParty.UploadImage "u2" session1 (Some "again.png")
              [0; 0; 0.25]%float ])%list.




Lemma euclideanDistance_guard {N : JsNumber} (arr1 arr2 : list num) :
  length arr1 <> length arr2 -> euclideanDistance arr1 arr2 = Throw DimensionMismatch.
Proof.
  intros Hne. unfold euclideanDistance.
  destruct (Nat.eqb_spec (length arr1) (length arr2)); [contradiction | reflexivity].
Qed.

Lemma euclideanDistance_returns {N : JsNumber} (arr1 arr2 : list num) :
  length arr1 = length arr2 ->
  euclideanDistance arr1 arr2 = Return (nsqrt (sumLoop nzero arr1 arr2)).
Proof.
  intros Heq. unfold euclideanDistance. rewrite Heq, Nat.eqb_refl. reflexivity.
Qed.

Example distance_3_4 :
  @euclideanDistance Binary64 [0; 0; 0]%float [3; 4; 0]%float = Return 5%float.
Proof. vm_compute. reflexivity. Qed.

(** ** The distance evaluator *)

(** *** Binary64 facts, from the specification of the primitive floats *)

Lemma float_of_SF (x y : float) : Prim2SF x = Prim2SF y -> x = y.
Proof.
  intros H. rewrite <- (SF2Prim_Prim2SF x), <- (SF2Prim_Prim2SF y), H. reflexivity.
Qed.




(** The magnitude of a rounded number does not depend on its sign. *)
Lemma binary_round_aux_abs prec emax s mx ex lx :
  SFabs (binary_round_aux prec emax s mx ex lx)
  = SFabs (binary_round_aux prec emax false mx ex lx).
Proof.
  unfold binary_round_aux.
  destruct (shr_fexp prec emax mx ex lx) as [mrs' e'].
  destruct (shr_fexp prec emax _ e' loc_Exact) as [mrs'' e''].
  destruct (shr_m mrs''); [reflexivity| |reflexivity].
  destruct (Z.leb _ _); reflexivity.
Qed.

Lemma binary_normalize_opp_abs prec emax m e :
  SFabs (binary_normalize prec emax (- m) e false)
  = SFabs (binary_normalize prec emax m e false).
Proof.
  destruct m as [|p|p]; simpl; [reflexivity| |]; unfold binary_round;
    destruct (shl_align _ _ _) as [mz ez];
    rewrite (binary_round_aux_abs prec emax true); reflexivity.
Qed.

(** [x - y] and [y - x] have the same magnitude. *)
Lemma SFsub_swap_abs prec emax x y :
  SFabs (SFsub prec emax x y) = SFabs (SFsub prec emax y x).
Proof.
  destruct x as [sx|sx| |sx mx ex], y as [sy|sy| |sy my ey];
    try reflexivity; try (destruct sx, sy; reflexivity).
  unfold SFsub. rewrite (Z.min_comm ey ex).
  rewrite <- binary_normalize_opp_abs. f_equal. f_equal. lia.
Qed.

Lemma SFmul_self_abs prec emax a :
  SFmul prec emax a a = SFmul prec emax (SFabs a) (SFabs a).
Proof. destruct a as [[]|[]| |[] m e]; reflexivity. Qed.

Lemma square_of_difference_sym (x y : float) :
  PrimFloat.mul (PrimFloat.sub x y) (PrimFloat.sub x y)
  = PrimFloat.mul (PrimFloat.sub y x) (PrimFloat.sub y x).
Proof.
  apply float_of_SF. rewrite !mul_spec, !sub_spec. unfold SF64mul, SF64sub.
  rewrite SFmul_self_abs, (SFmul_self_abs _ _ (SFsub _ _ (Prim2SF y) _)).
  rewrite (SFsub_swap_abs _ _ (Prim2SF x)). reflexivity.
Qed.

(** A finite number is a zero or has a mantissa and an exponent. *)
Lemma finite_SF (x : float) :
  PrimFloat.is_finite x = true ->
  (exists s, Prim2SF x = S754_zero s)
  \/ (exists s m e, Prim2SF x = S754_finite s m e).
Proof.
  unfold PrimFloat.is_finite, PrimFloat.is_nan, PrimFloat.is_infinity.
  rewrite negb_true_iff, orb_false_iff, negb_false_iff.
  rewrite !FloatAxioms.eqb_spec, abs_spec.
  change (Prim2SF infinity) with (S754_infinity false).
  destruct (Prim2SF x) as [s|s| |s m e]; simpl; intros [Hn Hi]; eauto;
    try discriminate.
Qed.

Lemma sub_self_finite (x : float) :
  PrimFloat.is_finite x = true -> PrimFloat.sub x x = 0%float.
Proof.
  intros Hf. apply float_of_SF. rewrite sub_spec.
  change (Prim2SF 0) with (S754_zero false).
  destruct (finite_SF x Hf) as [(s & ->)|(s & m & e & ->)]; unfold SF64sub; simpl.
  - destruct s; reflexivity.
  - rewrite Z.min_id, Z.sub_diag. reflexivity.
Qed.


(** *** The contract *)




(** X16. In binary64 the distance of a vector of finite numbers to itself
    is [0], and [0] is below the threshold: a participant whose descriptor
    equals the reference is a match. *)
Theorem self_distance_zero (a : list float) :
  Forall (fun x => PrimFloat.is_finite x = true) a ->
  @euclideanDistance Binary64 a a = Return 0%float
  /\ @nlt Binary64 0%float nthreshold = true.
Proof.
  intros Hfinite. split; [|reflexivity].
  rewrite (euclideanDistance_returns (N := Binary64)) by reflexivity.
  assert (Hsum : @sumLoop Binary64 0%float a a = 0%float).
  { induction Hfinite as [|x a Hx _ IH]; simpl; [reflexivity|].
    rewrite (sub_self_finite x Hx).
    change (PrimFloat.add 0 (PrimFloat.mul 0 0)) with 0%float. exact IH. }
  simpl. simpl in Hsum. rewrite Hsum. reflexivity.
Qed.

Lemma self_distance_zero_witness :
  @euclideanDistance Binary64 [0.5; -0.25; 3]%float [0.5; -0.25; 3]%float
  = Return 0%float
  /\ @nlt Binary64 0%float nthreshold = true.
Proof.
  apply (self_distance_zero [0.5; -0.25; 3]%float).
  repeat constructor.
Defined.

(** X17. In binary64 the evaluator is symmetric: swapping the two vectors
    gives the same number, bit for bit, or the same error. *)
Theorem distance_symmetric (a b : list float) :
  @euclideanDistance Binary64 a b = @euclideanDistance Binary64 b a.
Proof.
  destruct (Nat.eq_dec (length a) (length b)) as [Heq|Hne].
  - rewrite (euclideanDistance_returns (N := Binary64) a b Heq).
    rewrite (euclideanDistance_returns (N := Binary64) b a (eq_sym Heq)).
    f_equal. f_equal. generalize (@nzero Binary64). clear Heq. revert b.
    induction a as [|x a IH]; intros [|y b] sum; simpl; try reflexivity.
    rewrite (square_of_difference_sym x y). apply IH.
  - rewrite (euclideanDistance_guard (N := Binary64) a b Hne).
    rewrite (euclideanDistance_guard (N := Binary64) b a); [reflexivity|].
    intros Heq. apply Hne. symmetry. exact Heq.
Qed.

(** ** Lifecycle properties *)

Section Lifecycle.
Context {N : JsNumber}.

Lemma coherent_empty : coherent emptyServer.
Proof. apply map_Forall_empty. Qed.

Lemma coherent_insert (srv : Server) (sessionId : string) (session : Session.t)
    (connected : gmap string Socket.t) :
  coherent srv ->
  Forall flagAgrees (Session.participants session) ->
  coherent (mkServer (<[sessionId := session]> (sessions srv)) connected).
Proof.
  intros Hc Hs. unfold coherent; simpl. apply map_Forall_insert_2; assumption.
Qed.

Lemma coherent_lookup (srv : Server) (sessionId : string) (session : Session.t) :
  coherent srv -> sessions srv !! sessionId = Some session ->
  Forall flagAgrees (Session.participants session).
Proof. intros Hc Hl. exact (Hc _ _ Hl). Qed.

Lemma Forall_filter_keep {A : Type} (P : A -> Prop) (f : A -> bool) (l : list A) :
  Forall P l -> Forall P (List.filter f l).
Proof.
  induction 1 as [|x l Hx Hl IH]; simpl; [constructor|].
  destruct (f x); [constructor|]; assumption.
Qed.

Lemma create_session_coherent srv socket durationMinutes uuid now srv' out :
  coherent srv ->
  create_session srv socket durationMinutes uuid now = Done srv' out ->
  coherent srv'.
Proof.
  intros Hc H. unfold create_session in H. injection H as <- _.
  apply coherent_insert; [exact Hc | constructor].
Qed.

Lemma join_session_coherent srv socket sessionId srv' out :
  coherent srv -> join_session srv socket sessionId = Done srv' out -> coherent srv'.
Proof.
  intros Hc H. unfold join_session in H.
  destruct (sessions srv !! sessionId) as [session|];
    [|injection H as <- _; exact Hc].
  destruct (Nat.leb _ _); injection H as <- _; exact Hc.
Qed.

Lemma upload_reference_image_coherent srv socket sessionId image fd srv' out :
  coherent srv ->
  upload_reference_image srv socket sessionId image fd = Done srv' out ->
  coherent srv'.
Proof.
  intros Hc H. unfold upload_reference_image in H.
  destruct (sessions srv !! sessionId) as [session|] eqn:Hl;
    [|injection H as <- _; exact Hc].
  destruct (negb _); injection H as <- _; [exact Hc|].
  apply coherent_insert; [exact Hc|]. simpl. eapply coherent_lookup; eassumption.
Qed.

Lemma upload_participant_image_coherent srv socket sessionId image fd name now srv' out :
  coherent srv ->
  upload_participant_image srv socket sessionId image fd name now = Done srv' out ->
  coherent srv'.
Proof.
  intros Hc H. unfold upload_participant_image in H.
  destruct (sessions srv !! sessionId) as [session|] eqn:Hl;
    [|injection H as <- _; exact Hc].
  destruct (negb (truthy _)); [injection H as <- _; exact Hc|].
  destruct (Nat.leb _ _); [injection H as <- _; exact Hc|].
  destruct (match Session.referenceFaceDescriptor session with
            | Some r => euclideanDistance r fd | None => Throw TypeError end)
    as [distance|]; [|discriminate].
  injection H as <- _. apply coherent_insert; [exact Hc|]. simpl.
  apply Forall_app; split; [eapply coherent_lookup; eassumption|].
  constructor; [reflexivity | constructor].
Qed.

Lemma disconnect_coherent srv socket srv' out :
  coherent srv -> disconnect srv socket = Done srv' out -> coherent srv'.
Proof.
  intros Hc H. unfold disconnect in H.
  destruct (negb (truthy _)); [injection H as <- _; exact Hc|].
  destruct (sessions srv !! _) as [session|] eqn:Hl; [|injection H as <- _; exact Hc].
  assert (Hp : Forall flagAgrees
                 (if String.eqb (Session.adminId session) socket
                  then Session.participants session
                  else List.filter
                         (fun p => negb (String.eqb (Participant.socketId p) socket))
                         (Session.participants session))).
  { pose proof (coherent_lookup _ _ _ Hc Hl) as Hs.
    destruct (String.eqb _ _); [exact Hs | apply Forall_filter_keep; exact Hs]. }
  destruct (_ && _); injection H as <- _.
  - unfold coherent; simpl. apply map_Forall_delete.
    apply map_Forall_insert_2; [exact Hp | exact Hc].
  - unfold coherent; simpl. apply map_Forall_insert_2; [exact Hp | exact Hc].
Qed.

Lemma cleanup_coherent srv now : coherent srv -> coherent (cleanup srv now).
Proof.
  intros Hc id session Hl. unfold cleanup in Hl; simpl in Hl.
  apply map_lookup_filter_Some in Hl as [Hl _]. exact (Hc _ _ Hl).
Qed.

Lemma step_coherent srv i srv' out :
  coherent srv -> step srv i = Done srv' out -> coherent srv'.
Proof.
  intros Hc H. destruct i as [socket|socket r|socket|now]; simpl in H.
  - injection H as <- _. exact Hc.
  - destruct (sockets srv !! socket); [|injection H as <- _; exact Hc].
    destruct r; simpl in H;
      eauto using create_session_coherent, join_session_coherent,
        upload_reference_image_coherent, upload_participant_image_coherent.
  - eauto using disconnect_coherent.
  - injection H as <- _. apply cleanup_coherent, Hc.
Qed.

Lemma run_coherent inputs srv : coherent srv -> coherent (fst (run srv inputs)).
Proof.
  revert srv. induction inputs as [|i inputs IH]; intros srv Hc; simpl; [exact Hc|].
  destruct (step srv i) as [srv' out|msg] eqn:Hs; [|apply IH, Hc].
  specialize (IH srv' (step_coherent _ _ _ _ Hc Hs)).
  destruct (run srv' inputs); exact IH.
Qed.

(** *** The sweep keeps or drops a session, and changes none *)


Lemma cleanup_lookup_inv srv now sessionId session :
  sessions (cleanup srv now) !! sessionId = Some session ->
  sessions srv !! sessionId = Some session /\ expired now session = false.
Proof.
  unfold cleanup; simpl. intros Hl. apply map_lookup_filter_Some in Hl. exact Hl.
Qed.

(** *** What an upload that ran to its end did *)

Lemma truthy_Some (x : option string) :
  truthy x = true -> exists v, x = Some v /\ v <> "".
Proof.
  destruct x as [v|]; simpl; [|discriminate]. intros H. exists v. split; [reflexivity|].
  intros ->. discriminate.
Qed.

Lemma upload_participant_image_inv srv socket sessionId image fd name now srv' out :
  upload_participant_image srv socket sessionId image fd name now = Done srv' out ->
  (exists error, srv' = srv /\ out = [Callback socket (Failure error)])
  \/ (exists session reference descriptor distance,
        sessions srv !! sessionId = Some session
        /\ Session.referenceImage session = Some reference
        /\ reference <> ""
        /\ length (Session.participants session) < Session.maxParticipants session
        /\ Session.referenceFaceDescriptor session = Some descriptor
        /\ euclideanDistance descriptor fd = Return distance
        /\ srv' = setSessions srv
             (<[sessionId :=
                  setParticipants session
                    (Session.participants session ++
                     [Participant.mk socket (orElse name "Anonymous") image fd
                        (nlt distance nthreshold) distance now])]> (sessions srv))
        /\ out =
             ([Callback socket Success;
               SocketEmit socket
                 (VerificationResult (nlt distance nthreshold) distance
                    (if nlt distance nthreshold then Some reference else None)
                    image)]
              ++ (if nlt distance nthreshold
                  then [IoTo (Session.adminId session)
                          (galleryUpdated
                             (Session.participants session ++
                              [Participant.mk socket (orElse name "Anonymous") image fd
                                 (nlt distance nthreshold) distance now]))]
                  else []))%list).
Proof.
  intros H. unfold upload_participant_image in H.
  destruct (sessions srv !! sessionId) as [session|] eqn:Hl;
    [|injection H as <- <-; left; eauto].
  destruct (truthy (Session.referenceImage session)) eqn:Href; simpl in H;
    [|injection H as <- <-; left; eauto].
  destruct (Nat.leb_spec (Session.maxParticipants session)
              (length (Session.participants session))) as [Hfull|Hroom];
    [injection H as <- <-; left; eauto|].
  destruct (Session.referenceFaceDescriptor session) as [descriptor|] eqn:Hd;
    [|discriminate].
  destruct (euclideanDistance descriptor fd) as [distance|] eqn:He; [|discriminate].
  apply truthy_Some in Href as (reference & Href & Hne).
  injection H as <- <-. right. exists session, reference, descriptor, distance.
  rewrite Href. repeat split; assumption.
Qed.

Lemma matched_entries (participants : list Participant.t) :
  Forall flagAgrees participants ->
  Forall (fun g => nlt (GalleryEntry.matchDistance g) nthreshold = true)
         (map galleryEntry (List.filter Participant.matched participants)).
Proof.
  induction 1 as [|p l Hp Hl IH]; simpl; [constructor|].
  destruct (Participant.matched p) eqn:Hm; [|exact IH].
  constructor; [|exact IH]. simpl. unfold flagAgrees in Hp. congruence.
Qed.

(** Every [gallery-updated] event of a step lists matched entries only. *)
Lemma step_gallery_matched srv i srv' out e entries total count :
  coherent srv ->
  step srv i = Done srv' out ->
  In e out ->
  isGalleryUpdated e = Some (entries, total, count) ->
  Forall (fun g => nlt (GalleryEntry.matchDistance g) nthreshold = true) entries.
Proof.
  intros Hc Hs Hin Hg.
  destruct i as [socket|socket r|socket|now]; simpl in Hs.
  - injection Hs as <- <-. destruct Hin.
  - destruct (sockets srv !! socket); [|injection Hs as <- <-; destruct Hin].
    destruct r as [d uuid now|sid|sid image fd|sid image fd name now]; simpl in Hs.
    + unfold create_session in Hs. injection Hs as <- <-.
      destruct Hin as [<-|[]]. discriminate.
    + unfold join_session in Hs.
      destruct (sessions srv !! sid) as [session|];
        [destruct (Nat.leb _ _)|]; injection Hs as <- <-;
        repeat (destruct Hin as [<-|Hin]; [discriminate|]); destruct Hin.
    + unfold upload_reference_image in Hs.
      destruct (sessions srv !! sid) as [session|];
        [destruct (negb _)|]; injection Hs as <- <-;
        repeat (destruct Hin as [<-|Hin]; [discriminate|]); destruct Hin.
    + apply upload_participant_image_inv in Hs
        as [(error & -> & ->)|(session & reference & descriptor & distance & Hl & _ & _
                               & _ & _ & _ & -> & ->)].
      * destruct Hin as [<-|[]]. discriminate.
      * destruct Hin as [<-|[<-|Hin]]; [discriminate..|].
        destruct (nlt distance nthreshold) eqn:Hm; [|destruct Hin].
        destruct Hin as [<-|[]]. unfold galleryUpdated in Hg. simpl in Hg.
        injection Hg as <- _ _. apply matched_entries.
        apply Forall_app; split; [eapply coherent_lookup; eassumption|].
        constructor; [|constructor]. unfold flagAgrees; simpl. congruence.
  - unfold disconnect in Hs.
    destruct (negb (truthy _)); [injection Hs as <- <-; destruct Hin|].
    destruct (sessions srv !! _) as [session|];
      [|injection Hs as <- <-; destruct Hin].
    destruct (String.eqb _ _); destruct (_ && _); injection Hs as <- <-;
      destruct Hin as [<-|[]]; discriminate.
  - injection Hs as <- <-. destruct Hin.
Qed.

Lemma run_gallery_matched inputs srv e entries total count :
  coherent srv ->
  In e (snd (run srv inputs)) ->
  isGalleryUpdated e = Some (entries, total, count) ->
  Forall (fun g => nlt (GalleryEntry.matchDistance g) nthreshold = true) entries.
Proof.
  revert srv. induction inputs as [|i inputs IH]; intros srv Hc Hin Hg; simpl in Hin;
    [destruct Hin|].
  destruct (step srv i) as [srv' out|msg] eqn:Hs; [|eapply IH; eassumption].
  pose proof (step_coherent _ _ _ _ Hc Hs) as Hc'.
  destruct (run srv' inputs) as [final out'] eqn:Hr. simpl in Hin.
  apply in_app_or in Hin as [Hin|Hin].
  - exact (step_gallery_matched srv i srv' out e entries total count Hc Hs Hin Hg).
  - apply (IH srv' Hc'); [rewrite Hr; exact Hin | exact Hg].
Qed.

(** *** Selective disclosure *)

(** X23. Disclosure, record by record.  An accepted participant upload
    sends exactly one verification result to the uploading socket; it
    carries the session's reference image if and only if the distance to the
    reference is below the threshold.  When the distance is not below the
    threshold the reference image is withheld ([null]), the upload triggers
    no gallery update, and the entry of the record stored for this upload
    (its name, image, distance and timestamp) is in no gallery update the
    server sends afterwards, whatever happens next.  A record the same
    socket stored earlier is another record, and stays where it is. *)
Theorem disclosure_asymmetry
    (history future : list Input) (srv srv' : Server)
    (socket sessionId : string) (image : option string)
    (faceDescriptor : list num) (name : option string) (now : Z)
    (out : list Emission) :
  srv = fst (run emptyServer history) ->
  upload_participant_image srv socket sessionId image faceDescriptor name now
    = Done srv' out ->
  In (Callback socket Success) out ->
  exists session reference descriptor distance shown,
    sessions srv !! sessionId = Some session
    /\ Session.referenceImage session = Some reference
    /\ Session.referenceFaceDescriptor session = Some descriptor
    /\ euclideanDistance descriptor faceDescriptor = Return distance
    /\ (forall ev, In (SocketEmit socket ev) out <->
                   ev = VerificationResult (nlt distance nthreshold) distance
                          shown image)
    /\ (shown = Some reference <-> nlt distance nthreshold = true)
    /\ (nlt distance nthreshold = false ->
          shown = None
          /\ (forall e, In e out -> isGalleryUpdated e = None)
          /\ forall e entries total count,
               In e (snd (run srv' future)) ->
               isGalleryUpdated e = Some (entries, total, count) ->
               ~ In (GalleryEntry.mk (orElse name "Anonymous") image distance now)
                    entries).
Proof.
  intros Hsrv Hup Hok.
  assert (Hc : coherent srv) by (subst srv; apply run_coherent, coherent_empty).
  pose proof (upload_participant_image_coherent _ _ _ _ _ _ _ _ _ Hc Hup) as Hc'.
  apply upload_participant_image_inv in Hup
    as [(error & _ & ->)
       |(session & reference & descriptor & distance & Hl & Href & _ & _ & Hd & He
         & Hsrv' & ->)].
  { destruct Hok as [Hok|[]]. discriminate. }
  exists session, reference, descriptor, distance,
    (if nlt distance nthreshold then Some reference else None).
  repeat (split; [assumption|]).
  split; [|split].
  - intros ev. split.
    + intros [Hin|[Hin|Hin]]; [discriminate | injection Hin as <-; reflexivity |].
      destruct (nlt distance nthreshold); [destruct Hin as [Hin|[]]; discriminate|].
      destruct Hin.
    + intros ->. right. left. reflexivity.
  - destruct (nlt distance nthreshold); split; intros; congruence.
  - intros Hm. rewrite Hm. split; [reflexivity|]. split.
    + intros e [<-|[<-|[]]]; reflexivity.
    + intros e entries total count Hin Hg Hentry.
      pose proof (run_gallery_matched future srv' e entries total count Hc' Hin Hg)
        as Hall.
      rewrite List.Forall_forall in Hall. apply Hall in Hentry. simpl in Hentry.
      congruence.
Qed.

(** *** The gallery *)

(** C10. Whatever input the server handles, a [gallery-updated] event it
    sends goes to the session's administrator, lists exactly the
    participants of that session whose [matched] flag is set (in order,
    projected to name, image, matchDistance and timestamp), its
    [matchedCount] is the length of that list, its [totalParticipants] is
    the length of the session's participants array at that moment, and
    [matchedCount <= totalParticipants]. *)
Theorem gallery_updated_content
    (srv srv' : Server) (i : Input) (out : list Emission) (e : Emission)
    (entries : list GalleryEntry.t) (total count : nat) :
  step srv i = Done srv' out ->
  In e out ->
  isGalleryUpdated e = Some (entries, total, count) ->
  exists sessionId session,
    sessions srv' !! sessionId = Some session
    /\ e = IoTo (Session.adminId session) (GalleryUpdated entries total count)
    /\ entries = map (fun p => GalleryEntry.mk (Participant.name p)
                                 (Participant.image p)
                                 (Participant.matchDistance p)
                                 (Participant.timestamp p))
                   (List.filter Participant.matched (Session.participants session))
    /\ count = length entries
    /\ total = length (Session.participants session)
    /\ count <= total.
Proof.
  intros Hs Hin Hg.
  destruct i as [socket|socket r|socket|now]; simpl in Hs.
  - injection Hs as <- <-. destruct Hin.
  - destruct (sockets srv !! socket); [|injection Hs as <- <-; destruct Hin].
    destruct r as [d uuid now|sid|sid image fd|sid image fd name now]; simpl in Hs.
    + unfold create_session in Hs. injection Hs as <- <-.
      destruct Hin as [<-|[]]. discriminate.
    + unfold join_session in Hs.
      destruct (sessions srv !! sid) as [session|];
        [destruct (Nat.leb _ _)|]; injection Hs as <- <-;
        repeat (destruct Hin as [<-|Hin]; [discriminate|]); destruct Hin.
    + unfold upload_reference_image in Hs.
      destruct (sessions srv !! sid) as [session|];
        [destruct (negb _)|]; injection Hs as <- <-;
        repeat (destruct Hin as [<-|Hin]; [discriminate|]); destruct Hin.
    + apply upload_participant_image_inv in Hs
        as [(error & -> & ->)|(session & reference & descriptor & distance & Hl & _ & _
                               & _ & _ & _ & -> & ->)].
      * destruct Hin as [<-|[]]. discriminate.
      * destruct Hin as [<-|[<-|Hin]]; [discriminate..|].
        destruct (nlt distance nthreshold) eqn:Hm; [|destruct Hin].
        destruct Hin as [<-|[]]. unfold galleryUpdated in Hg. simpl in Hg.
        injection Hg as <- <- <-.
        eexists sid, _. split; [apply lookup_insert_eq|]. simpl.
        split; [reflexivity|]. split; [reflexivity|].
        split; [symmetry; apply (length_map galleryEntry)|]. split; [reflexivity|].
        apply filter_length_le.
  - unfold disconnect in Hs.
    destruct (negb (truthy _)); [injection Hs as <- <-; destruct Hin|].
    destruct (sessions srv !! _) as [session|];
      [|injection Hs as <- <-; destruct Hin].
    destruct (String.eqb _ _); destruct (_ && _); injection Hs as <- <-;
      destruct Hin as [<-|[]]; discriminate.
  - injection Hs as <- <-. destruct Hin.
Qed.

(** *** Uploads before the reference *)

(** C4. In a session whose reference image is still [null], an upload by
    any caller (the owner included) is answered with the reference-not-ready
    error and nothing else happens: the server state, and with it the
    participants array, is returned unchanged. *)
Theorem upload_before_reference
    (srv : Server) (socket sessionId : string) (session : Session.t)
    (image : option string) (faceDescriptor : list num) (name : option string)
    (now : Z) :
  sessions srv !! sessionId = Some session ->
  Session.referenceImage session = None ->
  upload_participant_image srv socket sessionId image faceDescriptor name now
    = Done srv [Callback socket (Failure ReferenceNotReady)].
Proof.
  intros Hl Href. unfold upload_participant_image. rewrite Hl, Href. reflexivity.
Qed.

(** A session is created without a reference. *)
Lemma create_session_no_reference srv socket durationMinutes uuid now srv' out session :
  create_session srv socket durationMinutes uuid now = Done srv' out ->
  sessions srv' !! newSessionId uuid = Some session ->
  Session.referenceImage session = None.
Proof.
  unfold create_session. intros H Hl. injection H as <- _. simpl in Hl.
  rewrite lookup_insert_eq in Hl. injection Hl as <-. reflexivity.
Qed.

(** The reference image of a session stays [null] as long as the server
    handles no reference upload for that session. *)
Lemma reference_stays_null srv i srv' out sessionId session' :
  (forall session, sessions srv !! sessionId = Some session ->
                   Session.referenceImage session = None) ->
  (forall socket image faceDescriptor,
      i <> FromSocket socket (UploadReferenceImage sessionId image faceDescriptor)) ->
  step srv i = Done srv' out ->
  sessions srv' !! sessionId = Some session' ->
  Session.referenceImage session' = None.
Proof.
  intros Hnull Hi Hs Hl'.
  destruct i as [socket|socket r|socket|now]; simpl in Hs.
  - injection Hs as <- _. exact (Hnull _ Hl').
  - destruct (sockets srv !! socket); [|injection Hs as <- _; exact (Hnull _ Hl')].
    destruct r as [d uuid now|sid|sid image fd|sid image fd name now]; simpl in Hs.
    + unfold create_session in Hs. injection Hs as <- _. simpl in Hl'.
      destruct (decide (newSessionId uuid = sessionId)) as [<-|Hne].
      * rewrite lookup_insert_eq in Hl'. injection Hl' as <-. reflexivity.
      * rewrite lookup_insert_ne in Hl' by exact Hne. exact (Hnull _ Hl').
    + unfold join_session in Hs.
      destruct (sessions srv !! sid); [destruct (Nat.leb _ _)|];
        injection Hs as <- _; exact (Hnull _ Hl').
    + unfold upload_reference_image in Hs.
      destruct (sessions srv !! sid) as [session|] eqn:Hl;
        [|injection Hs as <- _; exact (Hnull _ Hl')].
      destruct (negb _); injection Hs as <- _; [exact (Hnull _ Hl')|].
      simpl in Hl'. destruct (decide (sid = sessionId)) as [->|Hne].
      * exfalso. exact (Hi socket image fd eq_refl).
      * rewrite lookup_insert_ne in Hl' by exact Hne. exact (Hnull _ Hl').
    + apply upload_participant_image_inv in Hs
        as [(error & -> & _)|(session & reference & descriptor & distance & Hl & Href
                              & _ & _ & _ & _ & -> & _)];
        [exact (Hnull _ Hl')|].
      simpl in Hl'. destruct (decide (sid = sessionId)) as [->|Hne].
      * rewrite (Hnull _ Hl) in Href. discriminate.
      * rewrite lookup_insert_ne in Hl' by exact Hne. exact (Hnull _ Hl').
  - unfold disconnect in Hs.
    destruct (negb (truthy _)); [injection Hs as <- _; exact (Hnull _ Hl')|].
    destruct (sessions srv !! default "" _) as [session|] eqn:Hl;
      [|injection Hs as <- _; exact (Hnull _ Hl')].
    assert (Hins : forall participants,
               <[default "" ((sockets srv !! socket) ≫= Socket.sessionId)
                 := setParticipants session participants]> (sessions srv)
               !! sessionId = Some session' ->
               Session.referenceImage session' = None).
    { intros participants Hlk.
      destruct (decide (default "" ((sockets srv !! socket) ≫= Socket.sessionId)
                        = sessionId)) as [Heq|Hne].
      - rewrite Heq in Hlk, Hl. rewrite lookup_insert_eq in Hlk.
        injection Hlk as <-. simpl. exact (Hnull _ Hl).
      - rewrite lookup_insert_ne in Hlk by exact Hne. exact (Hnull _ Hlk). }
    destruct (_ && _); injection Hs as <- _; simpl in Hl'.
    + apply lookup_delete_Some in Hl' as [_ Hl']. exact (Hins _ Hl').
    + exact (Hins _ Hl').
  - injection Hs as <- _. apply cleanup_lookup_inv in Hl' as [Hl' _].
    exact (Hnull _ Hl').
Qed.

(** *** Authorization of the reference upload *)

(** C5. In an existing session, a reference upload by a socket other than
    the session's administrator is answered with the not-authorized error
    and changes nothing, whatever else the session holds; an upload by the
    administrator succeeds and replaces the reference image and descriptor
    by the uploaded ones, leaving the rest of the session and every other
    session as they were. *)
Theorem upload_reference_authorization
    (srv : Server) (socket sessionId : string) (session : Session.t)
    (image : option string) (faceDescriptor : list num) :
  sessions srv !! sessionId = Some session ->
  (socket <> Session.adminId session ->
     upload_reference_image srv socket sessionId image faceDescriptor
       = Done srv [Callback socket (Failure NotAuthorized)])
  /\ (socket = Session.adminId session ->
        exists srv',
          upload_reference_image srv socket sessionId image faceDescriptor
            = Done srv' [Callback socket Success]
          /\ sessions srv' !! sessionId
               = Some (setReference session image faceDescriptor)
          /\ Session.referenceImage (setReference session image faceDescriptor)
               = image
          /\ Session.referenceFaceDescriptor
               (setReference session image faceDescriptor) = Some faceDescriptor
          /\ Session.participants (setReference session image faceDescriptor)
               = Session.participants session
          /\ (forall other, other <> sessionId ->
                sessions srv' !! other = sessions srv !! other)
          /\ sockets srv' = sockets srv).
Proof.
  intros Hl. unfold upload_reference_image. rewrite Hl. split.
  - intros Hne. destruct (String.eqb_spec (Session.adminId session) socket) as [Heq|_];
      [congruence | reflexivity].
  - intros ->. rewrite String.eqb_refl. simpl. eexists. split; [reflexivity|].
    simpl. split; [apply lookup_insert_eq|]. repeat (split; [reflexivity|]).
    split; [|reflexivity]. intros other Hne. apply lookup_insert_ne. congruence.
Qed.

(** *** Capacity and repeated uploads *)

(** An upload that is accepted appends one record for the calling socket,
    whether or not the array already holds a record of that socket. *)
Lemma accepted_upload_appends
    (srv srv' : Server) (socket sessionId : string) (image : option string)
    (faceDescriptor : list num) (name : option string) (now : Z)
    (out : list Emission) :
  upload_participant_image srv socket sessionId image faceDescriptor name now
    = Done srv' out ->
  In (Callback socket Success) out ->
  exists session session' p,
    sessions srv !! sessionId = Some session
    /\ sessions srv' !! sessionId = Some session'
    /\ Participant.socketId p = socket
    /\ Session.participants session' = (Session.participants session ++ [p])%list.
Proof.
  intros Hup Hok.
  apply upload_participant_image_inv in Hup
    as [(error & _ & ->)
       |(session & reference & descriptor & distance & Hl & _ & _ & _ & _ & _
         & -> & _)].
  { destruct Hok as [Hok|[]]. discriminate. }
  eexists session, _,
    (Participant.mk socket (orElse name "Anonymous") image faceDescriptor
       (nlt distance nthreshold) distance now).
  split; [exact Hl|]. simpl.
  split; [apply lookup_insert_eq|]. split; reflexivity.
Qed.

(** At capacity every upload is refused, also one from a socket that
    already has a record in the array. *)
Lemma upload_at_capacity
    (srv : Server) (socket sessionId : string) (session : Session.t)
    (image : option string) (faceDescriptor : list num) (name : option string)
    (now : Z) :
  sessions srv !! sessionId = Some session ->
  truthy (Session.referenceImage session) = true ->
  Session.maxParticipants session <= length (Session.participants session) ->
  upload_participant_image srv socket sessionId image faceDescriptor name now
    = Done srv [Callback socket (Failure SessionFull)].
Proof.
  intros Hl Href Hfull. unfold upload_participant_image. rewrite Hl, Href. simpl.
  apply Nat.leb_le in Hfull. rewrite Hfull. reflexivity.
Qed.

(** *** Session creation *)

Lemma isUuidV4_prefix (uuid : string) :
  isUuidV4 uuid = true ->
  exists c0 c1 c2 c3 c4 c5 c6 c7 rest,
    uuid = String c0 (String c1 (String c2 (String c3
             (String c4 (String c5 (String c6 (String c7 rest)))))))
    /\ Forall (fun c => isHexDigit c = true) [c0; c1; c2; c3; c4; c5; c6; c7].
Proof.
  unfold isUuidV4. intros H.
  repeat match type of H with
         | isUuidFrom _ ?u = true =>
             destruct u; simpl in H; [discriminate|];
             apply andb_prop in H as [? H]
         end.
  do 9 eexists. split; [reflexivity|].
  repeat constructor; assumption.
Qed.

Lemma toUpperCase_hex (c : ascii) :
  isHexDigit c = true -> isUpperAlnum (toUpperCaseAscii c) = true.
Proof.
  destruct c as [[] [] [] [] [] [] [] []]; vm_compute; intros H;
    first [reflexivity | discriminate].
Qed.

(** C7, as the code has it. For a well-formed version 4 UUID the session
    identifier, its first eight characters in upper case, is eight
    characters long, each a digit or an upper-case letter.  The identifier
    is not checked against the sessions already stored: the new session is
    put under it in every case, so whatever was stored under the same
    identifier is replaced by the new, empty session; the sessions under
    all other identifiers are left as they were. *)
Theorem create_session_identifier
    (srv : Server) (socket : string) (durationMinutes : option Z)
    (uuid : string) (now : Z) :
  isUuidV4 uuid = true ->
  exists srv',
    create_session srv socket durationMinutes uuid now
      = Done srv' [Callback socket (SuccessSession (newSessionId uuid) true)]
    /\ String.length (newSessionId uuid) = 8
    /\ Forall (fun c => isUpperAlnum c = true)
              (list_ascii_of_string (newSessionId uuid))
    /\ sessions srv' !! newSessionId uuid
         = Some (Session.mk (newSessionId uuid) socket "" None None [] 10
                   (default 30%Z durationMinutes) now)
    /\ (forall other, other <> newSessionId uuid ->
          sessions srv' !! other = sessions srv !! other).
Proof.
  intros Huuid.
  apply isUuidV4_prefix in Huuid
    as (c0 & c1 & c2 & c3 & c4 & c5 & c6 & c7 & rest & -> & Hhex).
  assert (Hrest : String.substring 0 0 rest = "") by (destruct rest; reflexivity).
  eexists. split; [reflexivity|].
  split; [unfold newSessionId; simpl; rewrite Hrest; reflexivity|]. split.
  - unfold newSessionId. simpl. rewrite Hrest. simpl.
    repeat match goal with
           | H : Forall _ (_ :: _) |- _ => inversion H; subst; clear H
           end.
    repeat constructor; apply toUpperCase_hex; assumption.
  - simpl. split; [apply lookup_insert_eq|].
    intros other Hne. apply lookup_insert_ne. congruence.
Qed.

(** C8, as the code has it. Session creation does not look at the value of
    the requested duration: it always succeeds and stores the duration it
    was given, inside or outside 5..120, and 30 when the request carries
    none. *)
Theorem create_session_stores_duration
    (srv : Server) (socket : string) (durationMinutes : option Z)
    (uuid : string) (now : Z) :
  exists srv' session,
    create_session srv socket durationMinutes uuid now
      = Done srv' [Callback socket (SuccessSession (newSessionId uuid) true)]
    /\ sessions srv' !! newSessionId uuid = Some session
    /\ Session.durationMinutes session
         = match durationMinutes with
           | Some requested => requested
           | None => 30%Z
           end.
Proof.
  unfold create_session. do 2 eexists. split; [reflexivity|]. simpl.
  split; [apply lookup_insert_eq|]. destruct durationMinutes; reflexivity.
Qed.

(** *** Expiry *)







End Lifecycle.

(** ** The properties on the concrete run *)

(** C1. The claim fails for a connection that uploads twice.  In the run
    [opened] socket [A] uploaded a descriptor at distance 0.125 and was
    matched.  [A] then uploads a descriptor at distance [sqrt 75], not below
    the threshold: the upload is accepted, the verification result says
    [matched = false] and withholds the reference image, and the handler
    appends a second record for [A] next to the first.  The next gallery
    update the administrator receives (sent when [C] uploads a match) still
    lists [A]'s entry "Ann" with [A]'s first image, and counts three
    participants for two connections. *)
Lemma unmatched_uploader_still_listed :
  step (fst (run emptyServer opened)) secondUpload
  = Done (fst (run emptyServer reuploaded))
      [ Callback "A" Success;
        SocketEmit "A"
          (VerificationResult false (PrimFloat.sqrt 75) None (Some "a2.png")) ]
  /\ @nlt Binary64 (PrimFloat.sqrt 75) nthreshold = false
  /\ map Participant.socketId
       (default [] (Session.participants
                      <$> sessions (fst (run emptyServer reuploaded)) !! session1))
     = ["A"; "A"]
  /\ snd (run (fst (run emptyServer reuploaded)) later)
     = [ Callback "C" Success;
         SocketEmit "C"
           (VerificationResult true 0%float (Some "reference.png") (Some "c.png"));
         IoTo "owner"
           (GalleryUpdated
              [ GalleryEntry.mk "Ann" (Some "a.png") 0.125%float 2000;
                GalleryEntry.mk "Anonymous" (Some "c.png") 0%float 4000 ]
              3 2) ].
Proof. repeat split; vm_compute; reflexivity. Qed.

Lemma disclosure_asymmetry_witness :
  exists srv',
    upload_participant_image (fst (run emptyServer opened)) "B" session1
      (Some "b.png") [5; 5; 5]%float None 3000
    = Done srv'
        [ Callback "B" Success;
          SocketEmit "B"
            (VerificationResult false (PrimFloat.sqrt 75) None (Some "b.png")) ]
    /\ exists session reference descriptor distance shown,
         sessions (fst (run emptyServer opened)) !! session1 = Some session
         /\ Session.referenceImage session = Some reference
         /\ Session.referenceFaceDescriptor session = Some descriptor
         /\ euclideanDistance descriptor [5; 5; 5]%float = Return distance
         /\ (forall ev, In (SocketEmit "B" ev)
                          [ Callback "B" Success;
                            SocketEmit "B"
                              (VerificationResult false (PrimFloat.sqrt 75) None
                                 (Some "b.png")) ] <->
                        ev = VerificationResult (nlt distance nthreshold) distance
                               shown (Some "b.png"))
         /\ (shown = Some reference <-> nlt distance nthreshold = true)
         /\ (nlt distance nthreshold = false ->
               shown = None
               /\ (forall e, In e [ Callback "B" Success;
                                    SocketEmit "B"
                                      (VerificationResult false (PrimFloat.sqrt 75)
                                         None (Some "b.png")) ] ->
                             isGalleryUpdated e = None)
               /\ forall e entries total count,
                    In e (snd (run srv' later)) ->
                    isGalleryUpdated e = Some (entries, total, count) ->
                    ~ In (GalleryEntry.mk (orElse None "Anonymous") (Some "b.png")
                            distance 3000)
                         entries).
Proof.
  eassert (Hup : upload_participant_image (fst (run emptyServer opened)) "B"
                   session1 (Some "b.png") [5; 5; 5]%float None 3000
                 = Done _ [ Callback "B" Success;
                            SocketEmit "B"
                              (VerificationResult false (PrimFloat.sqrt 75) None
                                 (Some "b.png")) ])
    by (vm_compute; reflexivity).
  eexists. split; [exact Hup|].
  apply (disclosure_asymmetry opened later _ _ _ _ _ _ _ _ _ eq_refl Hup).
  left; reflexivity.
Defined.

Lemma gallery_updated_content_witness :
  exists srv',
    step (fst (run emptyServer (opened ++ [Connection "C"])))
         (FromSocket "C"
            (UploadParticipantImage session1 (Some "c.png") [0; 0; 0]%float
               None 4000))
    = Done srv'
        [ Callback "C" Success;
          SocketEmit "C"
            (VerificationResult true 0%float (Some "reference.png") (Some "c.png"));
          IoTo "owner"
            (GalleryUpdated
               [ GalleryEntry.mk "Ann" (Some "a.png") 0.125%float 2000;
                 GalleryEntry.mk "Anonymous" (Some "c.png") 0%float 4000 ]
               2 2) ]
    /\ exists sessionId session,
         sessions srv' !! sessionId = Some session
         /\ IoTo "owner"
              (GalleryUpdated
                 [ GalleryEntry.mk "Ann" (Some "a.png") 0.125%float 2000;
                   GalleryEntry.mk "Anonymous" (Some "c.png") 0%float 4000 ]
                 2 2)
            = IoTo (Session.adminId session)
                (GalleryUpdated
                   [ GalleryEntry.mk "Ann" (Some "a.png") 0.125%float 2000;
                     GalleryEntry.mk "Anonymous" (Some "c.png") 0%float 4000 ]
                   2 2)
         /\ [ GalleryEntry.mk "Ann" (Some "a.png") 0.125%float 2000;
              GalleryEntry.mk "Anonymous" (Some "c.png") 0%float 4000 ]
            = map (fun p => GalleryEntry.mk (Participant.name p)
                              (Participant.image p)
                              (Participant.matchDistance p)
                              (Participant.timestamp p))
                (List.filter Participant.matched (Session.participants session))
         /\ 2 = length [ GalleryEntry.mk "Ann" (Some "a.png") 0.125%float 2000;
                         GalleryEntry.mk (N := Binary64) "Anonymous" (Some "c.png")
                           0%float 4000 ]
         /\ 2 = length (Session.participants session)
         /\ 2 <= 2.
Proof.
  eassert (Hs : step (fst (run emptyServer (opened ++ [Connection "C"])))
                  (FromSocket "C"
                     (UploadParticipantImage session1 (Some "c.png")
                        [0; 0; 0]%float None 4000))
                = Done _
                    [ Callback "C" Success;
                      SocketEmit "C"
                        (VerificationResult true 0%float (Some "reference.png")
                           (Some "c.png"));
                      IoTo "owner"
                        (GalleryUpdated
                           [ GalleryEntry.mk "Ann" (Some "a.png") 0.125%float 2000;
                             GalleryEntry.mk "Anonymous" (Some "c.png") 0%float 4000 ]
                           2 2) ])
    by (vm_compute; reflexivity).
  match type of Hs with
  | _ = Done _ ?out =>
      eassert (Hin : In _ out) by (right; right; left; reflexivity)
  end.
  match type of Hin with
  | In ?e _ => eassert (Hg : isGalleryUpdated e = Some (_, _, _)) by reflexivity
  end.
  eexists. split; [exact Hs|].
  exact (gallery_updated_content _ _ _ _ _ _ _ _ Hs Hin Hg).
Defined.

Lemma upload_before_reference_witness :
  exists session,
    sessions (fst (run emptyServer (firstn 4 opened))) !! session1 = Some session
    /\ Session.referenceImage session = None
    /\ upload_participant_image (fst (run emptyServer (firstn 4 opened))) "A"
         session1 (Some "a.png") [0; 0; 0.125]%float (Some "Ann") 2000
       = Done (fst (run emptyServer (firstn 4 opened)))
           [Callback "A" (Failure ReferenceNotReady)].
Proof.
  eassert (Hl : sessions (fst (run emptyServer (firstn 4 opened))) !! session1
                = Some _) by (vm_compute; reflexivity).
  eexists. split; [exact Hl|]. split; [reflexivity|].
  exact (upload_before_reference (N := Binary64) _ "A" session1 _ (Some "a.png")
           [0; 0; 0.125]%float (Some "Ann") 2000 Hl eq_refl).
Defined.

Lemma upload_reference_authorization_witness :
  exists session,
    sessions (fst (run emptyServer opened)) !! session1 = Some session
    /\ upload_reference_image (fst (run emptyServer opened)) "A" session1
         (Some "mine.png") [1; 1; 1]%float
       = Done (fst (run emptyServer opened))
           [Callback "A" (Failure NotAuthorized)]
    /\ exists srv',
         upload_reference_image (fst (run emptyServer opened)) "owner" session1
           (Some "new.png") [1; 1; 1]%float
         = Done srv' [Callback "owner" Success]
         /\ sessions srv' !! session1
            = Some (setReference session (Some "new.png") [1; 1; 1]%float).
Proof.
  eassert (Hl : sessions (fst (run emptyServer opened)) !! session1 = Some _)
    by (vm_compute; reflexivity).
  eexists. split; [exact Hl|]. split.
  - apply (upload_reference_authorization (N := Binary64) _ "A" session1 _
             (Some "mine.png")
             [1; 1; 1]%float Hl). discriminate.
  - destruct (proj2 (upload_reference_authorization (N := Binary64) _ "owner"
                       session1 _ (Some "new.png") [1; 1; 1]%float Hl) eq_refl)
      as (srv' & Hup & Hnew & _).
    exists srv'. split; assumption.
Defined.

(** C2, on the run: after [A]'s first upload was accepted, a second upload
    from the same socket is accepted too and is appended; the session then
    holds two records with socket id [A]. *)
Lemma second_upload_duplicates_socket :
  exists srv' out session,
    upload_participant_image (fst (run emptyServer opened)) "A" session1
      (Some "a2.png") [0; 0; 0.25]%float (Some "Ann") 5000 = Done srv' out
    /\ In (Callback "A" Success) out
    /\ sessions srv' !! session1 = Some session
    /\ map Participant.socketId (Session.participants session) = ["A"; "A"]
    /\ ~ List.NoDup (map Participant.socketId (Session.participants session)).
Proof.
  eassert (Hup : upload_participant_image (fst (run emptyServer opened)) "A"
                   session1 (Some "a2.png") [0; 0; 0.25]%float (Some "Ann") 5000
                 = Done _ _) by (vm_compute; reflexivity).
  match type of Hup with
  | _ = Done ?srv' _ =>
      eassert (Hl : sessions srv' !! session1 = Some _)
        by (vm_compute; reflexivity)
  end.
  do 3 eexists. split; [exact Hup|]. split; [left; reflexivity|].
  split; [exact Hl|]. split; [reflexivity|].
  simpl. intros Hnd. inversion Hnd as [|x l Hnotin _]; subst.
  apply Hnotin. left. reflexivity.
Qed.

(** C3, on the run: with ten records stored, one of them of socket [p0], an
    upload by [p0] is refused with the session-full error. *)
Lemma full_session_refuses_existing_participant :
  exists session,
    sessions (fst (run emptyServer filled)) !! session1 = Some session
    /\ length (Session.participants session) = Session.maxParticipants session
    /\ In "p0" (map Participant.socketId (Session.participants session))
    /\ upload_participant_image (fst (run emptyServer filled)) "p0" session1
         (Some "again.png") [0; 0; 0.125]%float None 9000
       = Done (fst (run emptyServer filled)) [Callback "p0" (Failure SessionFull)].
Proof.
  eassert (Hl : sessions (fst (run emptyServer filled)) !! session1 = Some _)
    by (vm_compute; reflexivity).
  eexists. split; [exact Hl|]. split; [reflexivity|].
  split; [left; reflexivity|].
  apply (upload_at_capacity (N := Binary64) _ "p0" session1 _ _ _ _ _ Hl);
    [reflexivity|].
  simpl. lia.
Qed.

(** C7 fails as stated: a second [create-session] whose UUID starts with
    the same eight characters is stored over the live session; the
    reference and the participant record it held are gone. *)
Lemma create_session_replaces_live_session :
  exists old srv' out,
    sessions (fst (run emptyServer opened)) !! session1 = Some old
    /\ Session.referenceImage old = Some "reference.png"
    /\ length (Session.participants old) = 1
    /\ isUuidV4 uuid2 = true
    /\ create_session (fst (run emptyServer opened)) "B" (Some 30%Z) uuid2 5000
       = Done srv' out
    /\ sessions srv' !! session1
       = Some (Session.mk session1 "B" "" None None [] 10 30%Z 5000)
    /\ sessions srv' !! session1 <> Some old.
Proof.
  eassert (Hl : sessions (fst (run emptyServer opened)) !! session1 = Some _)
    by (vm_compute; reflexivity).
  eassert (Hc : create_session (fst (run emptyServer opened)) "B" (Some 30%Z)
                  uuid2 5000 = Done _ _) by (vm_compute; reflexivity).
  match type of Hc with
  | _ = Done ?srv' _ =>
      eassert (Hl' : sessions srv' !! session1 = Some _)
        by (vm_compute; reflexivity)
  end.
  do 3 eexists. split; [exact Hl|]. split; [reflexivity|]. split; [reflexivity|].
  split; [reflexivity|]. split; [exact Hc|]. split; [exact Hl'|].
  intros Heq. pose proof (eq_trans (eq_sym Hl') Heq) as Hne. discriminate Hne.
Qed.

Lemma create_session_identifier_witness :
  isUuidV4 uuid2 = true
  /\ exists srv',
       create_session (fst (run emptyServer opened)) "B" (Some 45%Z) uuid2 5000
       = Done srv' [Callback "B" (SuccessSession (newSessionId uuid2) true)]
       /\ String.length (newSessionId uuid2) = 8
       /\ Forall (fun c => isUpperAlnum c = true)
                 (list_ascii_of_string (newSessionId uuid2))
       /\ sessions srv' !! newSessionId uuid2
          = Some (Session.mk (newSessionId uuid2) "B" "" None None [] 10
                    (default 30%Z (Some 45%Z)) 5000)
       /\ (forall other, other <> newSessionId uuid2 ->
             sessions srv' !! other
             = sessions (fst (run emptyServer opened)) !! other).
Proof.
  split; [reflexivity|].
  apply (create_session_identifier (fst (run emptyServer opened)) "B"
           (Some 45%Z) uuid2 5000).
  reflexivity.
Defined.

(** C8 fails as stated: a duration of 100000 minutes is accepted and stored
    as it is. *)
Lemma create_session_stores_out_of_range_duration :
  exists srv' session,
    @create_session Binary64 emptyServer "owner" (Some 100000%Z) uuid1 1000
    = Done srv' [Callback "owner" (SuccessSession session1 true)]
    /\ sessions srv' !! session1 = Some session
    /\ Session.durationMinutes session = 100000%Z
    /\ ~ (5 <= Session.durationMinutes session <= 120)%Z.
Proof.
  eassert (Hc : @create_session Binary64 emptyServer "owner" (Some 100000%Z)
                  uuid1 1000 = Done _ _) by (vm_compute; reflexivity).
  match type of Hc with
  | _ = Done ?srv' _ =>
      eassert (Hl : sessions srv' !! session1 = Some _)
        by (vm_compute; reflexivity)
  end.
  do 2 eexists. split; [exact Hc|]. split; [exact Hl|]. split; [reflexivity|].
  simpl. lia.
Qed.



(** ** The two-party handler keeps one record per socket *)

Section TwoPartyUpload.
Context {N : JsNumber}.

Lemma findIndex_Some (socket : string) (users : list TwoParty.User) (i : nat) :
  TwoParty.findIndex socket users = Some i ->
  exists u, users !! i = Some u /\ TwoParty.socketId u = socket.
Proof.
  revert i. induction users as [|u users IH]; intros i; simpl; [discriminate|].
  destruct (String.eqb_spec (TwoParty.socketId u) socket) as [Heq|_].
  - intros [= <-]. exists u. split; [reflexivity | exact Heq].
  - destruct (TwoParty.findIndex socket users) as [j|]; simpl; [|discriminate].
    intros [= <-]. apply (IH j eq_refl).
Qed.

Lemma findIndex_None (socket : string) (users : list TwoParty.User) :
  TwoParty.findIndex socket users = None ->
  ~ In socket (map TwoParty.socketId users).
Proof.
  induction users as [|u users IH]; simpl; [tauto|].
  destruct (String.eqb_spec (TwoParty.socketId u) socket) as [|Hne]; [discriminate|].
  destruct (TwoParty.findIndex socket users); simpl; [discriminate|].
  intros _ [Heq|Hin]; [contradiction | exact (IH eq_refl Hin)].
Qed.

Lemma map_socketId_replace (users : list TwoParty.User) (i : nat)
    (u v : TwoParty.User) :
  users !! i = Some u -> TwoParty.socketId v = TwoParty.socketId u ->
  map TwoParty.socketId (<[i := v]> users) = map TwoParty.socketId users.
Proof.
  revert i. induction users as [|w users IH]; intros [|i]; simpl; try discriminate.
  - intros [= ->] ->. reflexivity.
  - intros Hl Hv. f_equal. exact (IH i Hl Hv).
Qed.

(** A second upload from a socket overwrites that socket's record: socket
    ids stay pairwise different, and a socket that already has a record is
    served also when the session is full. *)
Lemma two_party_upload_keeps_sockets_unique
    (users users' : list TwoParty.User) (socket : string)
    (image : option string) (faceDescriptor : list num) :
  List.NoDup (map TwoParty.socketId users) ->
  TwoParty.upload_image users socket image faceDescriptor = Some users' ->
  List.NoDup (map TwoParty.socketId users').
Proof.
  intros Hnd. unfold TwoParty.upload_image.
  destruct (TwoParty.findIndex socket users) as [i|] eqn:Hf.
  - intros [= <-]. apply findIndex_Some in Hf as (u & Hl & Hu).
    rewrite (map_socketId_replace users i u); [exact Hnd | exact Hl|].
    simpl. congruence.
  - destruct (Nat.leb 2 (length users)); [discriminate|]. intros [= <-].
    rewrite map_app. simpl. apply findIndex_None in Hf.
    apply NoDup_ListNoDup, NoDup_app. repeat split.
    + apply NoDup_ListNoDup. exact Hnd.
    + intros x Hx Hsingle. apply list_elem_of_In in Hx.
      apply list_elem_of_In in Hsingle. destruct Hsingle as [<-|[]].
      exact (Hf Hx).
    + apply NoDup_singleton.
Qed.

Lemma two_party_upload_serves_existing_user
    (users : list TwoParty.User) (socket : string)
    (image : option string) (faceDescriptor : list num) :
  In socket (map TwoParty.socketId users) ->
  exists users',
    TwoParty.upload_image users socket image faceDescriptor = Some users'
    /\ length users' = length users.
Proof.
  intros Hin. unfold TwoParty.upload_image.
  destruct (TwoParty.findIndex socket users) as [i|] eqn:Hf.
  - eexists. split; [reflexivity|]. apply length_insert.
  - apply findIndex_None in Hf. contradiction.
Qed.

End TwoPartyUpload.

(** ** Further properties of the handlers *)

Section Handlers_more.
Context {N : JsNumber}.

Lemma setParticipants_same (session : Session.t) :
  setParticipants session (Session.participants session) = session.
Proof. destruct session; reflexivity. Qed.

(** Where a session found in the store after a step comes from. *)
Lemma step_session_origin srv i srv' out k s' :
  step srv i = Done srv' out ->
  sessions srv' !! k = Some s' ->
  sessions srv !! k = Some s'
  \/ (exists socket d uuid now,
        i = FromSocket socket (CreateSession d uuid now)
        /\ k = newSessionId uuid
        /\ s' = Session.mk k socket "" None None [] 10 (default 30%Z d) now)
  \/ (exists s socket image fd,
        i = FromSocket socket (UploadReferenceImage k image fd)
        /\ sessions srv !! k = Some s
        /\ Session.adminId s = socket
        /\ s' = setReference s image fd)
  \/ (exists s socket image fd name now reference distance,
        i = FromSocket socket (UploadParticipantImage k image fd name now)
        /\ sessions srv !! k = Some s
        /\ length (Session.participants s) < Session.maxParticipants s
        /\ Session.referenceFaceDescriptor s = Some reference
        /\ euclideanDistance reference fd = Return distance
        /\ s' = setParticipants s
                  (Session.participants s ++
                   [Participant.mk socket (orElse name "Anonymous") image fd
                      (nlt distance nthreshold) distance now]))
  \/ (exists s socket,
        i = Disconnect socket
        /\ sessions srv !! k = Some s
        /\ Session.adminId s <> socket
        /\ s' = setParticipants s (withoutSocket socket (Session.participants s))).
Proof.
  intros Hs Hl'.
  destruct i as [socket|socket r|socket|now]; simpl in Hs.
  - injection Hs as <- _. left. exact Hl'.
  - destruct (sockets srv !! socket); [|injection Hs as <- _; left; exact Hl'].
    destruct r as [d uuid now|sid|sid image fd|sid image fd name now]; simpl in Hs.
    + unfold create_session in Hs. injection Hs as <- _. simpl in Hl'.
      destruct (decide (newSessionId uuid = k)) as [<-|Hne].
      * rewrite lookup_insert_eq in Hl'. injection Hl' as <-.
        right. left. eauto 10.
      * rewrite lookup_insert_ne in Hl' by exact Hne. left. exact Hl'.
    + unfold join_session in Hs.
      destruct (sessions srv !! sid); [destruct (Nat.leb _ _)|];
        injection Hs as <- _; left; exact Hl'.
    + unfold upload_reference_image in Hs.
      destruct (sessions srv !! sid) as [s|] eqn:Hl;
        [|injection Hs as <- _; left; exact Hl'].
      destruct (String.eqb_spec (Session.adminId s) socket) as [Hadm|_];
        simpl in Hs; injection Hs as <- _; [|left; exact Hl'].
      simpl in Hl'. destruct (decide (sid = k)) as [->|Hne].
      * rewrite lookup_insert_eq in Hl'. injection Hl' as <-.
        right. right. left. eauto 10.
      * rewrite lookup_insert_ne in Hl' by exact Hne. left. exact Hl'.
    + apply upload_participant_image_inv in Hs
        as [(error & -> & _)|(s & reference & descriptor & distance & Hl & _ & _
                              & Hroom & Hd & He & -> & _)];
        [left; exact Hl'|].
      simpl in Hl'. destruct (decide (sid = k)) as [->|Hne].
      * rewrite lookup_insert_eq in Hl'. injection Hl' as <-.
        right. right. right. left. eauto 15.
      * rewrite lookup_insert_ne in Hl' by exact Hne. left. exact Hl'.
  - unfold disconnect in Hs.
    destruct (negb (truthy _)); [injection Hs as <- _; left; exact Hl'|].
    set (sid := default "" ((sockets srv !! socket) ≫= Socket.sessionId)) in *.
    destruct (sessions srv !! sid) as [s|] eqn:Hl;
      [|injection Hs as <- _; left; exact Hl'].
    assert (Hins : forall stored,
               stored = <[sid := setParticipants s
                                   (if String.eqb (Session.adminId s) socket
                                    then Session.participants s
                                    else withoutSocket socket (Session.participants s))]>
                          (sessions srv) ->
               stored !! k = Some s' ->
               sessions srv !! k = Some s'
               \/ (sessions srv !! k = Some s /\ Session.adminId s <> socket
                   /\ s' = setParticipants s
                             (withoutSocket socket (Session.participants s)))).
    { intros stored -> Hlk. destruct (decide (sid = k)) as [Heq|Hne].
      - rewrite Heq in Hlk, Hl. rewrite lookup_insert_eq in Hlk. injection Hlk as <-.
        destruct (String.eqb_spec (Session.adminId s) socket) as [_|Hadm].
        + left. rewrite setParticipants_same. exact Hl.
        + right. auto.
      - rewrite lookup_insert_ne in Hlk by exact Hne. left. exact Hlk. }
    destruct (_ && _); injection Hs as <- _; simpl in Hl'.
    + apply lookup_delete_Some in Hl' as [_ Hl'].
      destruct (Hins _ eq_refl Hl') as [?|(? & ? & ?)]; [left; assumption|].
      do 4 right. eauto 10.
    + destruct (Hins _ eq_refl Hl') as [?|(? & ? & ?)]; [left; assumption|].
      do 4 right. eauto 10.
  - injection Hs as <- _. apply cleanup_lookup_inv in Hl' as [Hl' _].
    left. exact Hl'.
Qed.

(** A property of the stored sessions that every step keeps holds after
    every run. *)
Lemma run_sessions_invariant (P : string -> Session.t -> Prop) :
  (forall srv i srv' out,
      map_Forall P (sessions srv) -> step srv i = Done srv' out ->
      map_Forall P (sessions srv')) ->
  forall inputs srv,
    map_Forall P (sessions srv) -> map_Forall P (sessions (fst (run srv inputs))).
Proof.
  intros Hstep inputs. induction inputs as [|i inputs IH]; intros srv HP; simpl;
    [exact HP|].
  destruct (step srv i) as [srv' out|msg] eqn:Hs; [|apply IH, HP].
  specialize (IH srv' (Hstep _ _ _ _ HP Hs)).
  destruct (run srv' inputs); exact IH.
Qed.

(** *** Invariants of the store *)

(** X1. However the server got where it is, no session holds more records
    than its capacity, and the capacity is ten. *)
Theorem capacity_never_exceeded
    (history : list Input) (k : string) (s : Session.t) :
  sessions (fst (run emptyServer history)) !! k = Some s ->
  Session.maxParticipants s = 10
  /\ length (Session.participants s) <= Session.maxParticipants s.
Proof.
  revert k s.
  apply (run_sessions_invariant
           (fun _ s => Session.maxParticipants s = 10
                       /\ length (Session.participants s)
                          <= Session.maxParticipants s));
    [|apply map_Forall_empty].
  intros srv i srv' out HP Hs k s' Hl'.
  destruct (step_session_origin _ _ _ _ _ _ Hs Hl')
    as [Hl|[(socket & d & uuid & now & _ & _ & ->)
       |[(s & socket & image & fd & _ & Hl & _ & ->)
       |[(s & socket & image & fd & name & now & reference & distance & _ & Hl
          & Hroom & _ & _ & ->)
       |(s & socket & _ & Hl & _ & ->)]]]].
  - exact (HP _ _ Hl).
  - simpl. split; [reflexivity | lia].
  - exact (HP _ _ Hl).
  - destruct (HP _ _ Hl) as [Hmax _]. simpl. split; [exact Hmax|].
    rewrite length_app. simpl. lia.
  - destruct (HP _ _ Hl) as [Hmax Hlen]. simpl. split; [exact Hmax|].
    unfold withoutSocket.
    pose proof (filter_length_le
                  (fun p => negb (String.eqb (Participant.socketId p) socket))
                  (Session.participants s)). lia.
Qed.

Lemma substring_length_le (n : nat) (u : string) :
  String.length (String.substring 0 n u) <= n.
Proof.
  revert u. induction n as [|n IH]; intros [|c u]; simpl; try lia.
  specialize (IH u). lia.
Qed.

Lemma toUpperCase_length (u : string) :
  String.length (toUpperCase u) = String.length u.
Proof. induction u as [|c u IH]; simpl; congruence. Qed.

(** X2. Every stored session sits under its own [id], an identifier of at
    most eight characters; its [adminName] is the empty string, which no
    handler ever overwrites; and each of its records has a non-empty name
    and a [matched] flag that agrees with its distance. *)
Theorem stored_session_shape
    (history : list Input) (k : string) (s : Session.t) :
  sessions (fst (run emptyServer history)) !! k = Some s ->
  Session.id s = k
  /\ String.length k <= 8
  /\ Session.adminName s = ""
  /\ Forall (fun p => Participant.name p <> ""
                      /\ Participant.matched p
                         = nlt (Participant.matchDistance p) nthreshold)
            (Session.participants s).
Proof.
  revert k s.
  apply (run_sessions_invariant
           (fun k s => Session.id s = k
                       /\ String.length k <= 8
                       /\ Session.adminName s = ""
                       /\ Forall (fun p => Participant.name p <> ""
                                           /\ Participant.matched p
                                              = nlt (Participant.matchDistance p)
                                                    nthreshold)
                                 (Session.participants s)));
    [|apply map_Forall_empty].
  intros srv i srv' out HP Hs k s' Hl'.
  destruct (step_session_origin _ _ _ _ _ _ Hs Hl')
    as [Hl|[(socket & d & uuid & now & _ & -> & ->)
       |[(s & socket & image & fd & _ & Hl & _ & ->)
       |[(s & socket & image & fd & name & now & reference & distance & _ & Hl
          & _ & _ & _ & ->)
       |(s & socket & _ & Hl & _ & ->)]]]].
  - exact (HP _ _ Hl).
  - simpl. split; [reflexivity|]. split; [|split; [reflexivity | constructor]].
    unfold newSessionId. rewrite toUpperCase_length. apply substring_length_le.
  - exact (HP _ _ Hl).
  - destruct (HP _ _ Hl) as (Hid & Hlen & Hname & Hrec). simpl.
    repeat (split; [assumption|]).
    apply Forall_app; split; [exact Hrec|]. constructor; [|constructor]. simpl.
    split; [|reflexivity]. unfold orElse.
    destruct (truthy name) eqn:Ht; [|discriminate].
    apply truthy_Some in Ht as (v & -> & Hv). exact Hv.
  - destruct (HP _ _ Hl) as (Hid & Hlen & Hname & Hrec). simpl.
    repeat (split; [assumption|]). apply Forall_filter_keep. exact Hrec.
Qed.

(** X3. A participant upload whose descriptor is an array of another
    length than the session's stored reference descriptor passes the guards
    in the order of the handler.  When the session has its reference image
    and has room, the handler throws the dimension-mismatch error before it
    stored or sent anything: no record, no acknowledgement.  When the
    reference image is missing, or when the session is full, the wrong
    length goes unnoticed: the caller gets the failure acknowledgement of
    that guard and the state is unchanged. *)
Theorem wrong_length_upload
    (srv : Server) (socket k : string) (image : option string)
    (fd : list num) (name : option string) (now : Z)
    (s : Session.t) (reference : list num) :
  sessions srv !! k = Some s ->
  Session.referenceFaceDescriptor s = Some reference ->
  length reference <> length fd ->
  (truthy (Session.referenceImage s) = true ->
   length (Session.participants s) < Session.maxParticipants s ->
   upload_participant_image srv socket k image fd name now
   = Threw DimensionMismatch)
  /\ (truthy (Session.referenceImage s) = false ->
      upload_participant_image srv socket k image fd name now
      = Done srv [Callback socket (Failure ReferenceNotReady)])
  /\ (truthy (Session.referenceImage s) = true ->
      Session.maxParticipants s <= length (Session.participants s) ->
      upload_participant_image srv socket k image fd name now
      = Done srv [Callback socket (Failure SessionFull)]).
Proof.
  intros Hl Hd Hne. unfold upload_participant_image. rewrite Hl, Hd.
  rewrite (euclideanDistance_guard reference fd Hne).
  split; [|split].
  - intros -> Hroom. simpl.
    destruct (Nat.leb_spec (Session.maxParticipants s)
                (length (Session.participants s))); [lia | reflexivity].
  - intros ->. reflexivity.
  - intros -> Hfull. simpl.
    destruct (Nat.leb_spec (Session.maxParticipants s)
                (length (Session.participants s))); [reflexivity | lia].
Qed.

(** X4. A session that is in the store before and after a step, and was not
    created anew by that step, keeps its id, administrator, capacity,
    duration and creation time. *)
Theorem step_keeps_session_identity
    (srv srv' : Server) (i : Input) (out : list Emission) (k : string)
    (s s' : Session.t) :
  step srv i = Done srv' out ->
  sessions srv !! k = Some s ->
  sessions srv' !! k = Some s' ->
  (forall socket d uuid now,
      i = FromSocket socket (CreateSession d uuid now) -> newSessionId uuid <> k) ->
  Session.id s' = Session.id s
  /\ Session.adminId s' = Session.adminId s
  /\ Session.maxParticipants s' = Session.maxParticipants s
  /\ Session.durationMinutes s' = Session.durationMinutes s
  /\ Session.createdAt s' = Session.createdAt s.
Proof.
  intros Hs Hl Hl' Hnew.
  destruct (step_session_origin _ _ _ _ _ _ Hs Hl')
    as [Hl0|[(socket & d & uuid & now & -> & Hk & _)
       |[(s0 & socket & image & fd & _ & Hl0 & _ & ->)
       |[(s0 & socket & image & fd & name & now & reference & distance & _ & Hl0
          & _ & _ & _ & ->)
       |(s0 & socket & _ & Hl0 & _ & ->)]]]].
  - rewrite Hl in Hl0. injection Hl0 as ->. repeat split.
  - exfalso. exact (Hnew _ _ _ _ eq_refl (eq_sym Hk)).
  - rewrite Hl in Hl0. injection Hl0 as ->. repeat split.
  - rewrite Hl in Hl0. injection Hl0 as ->. repeat split.
  - rewrite Hl in Hl0. injection Hl0 as ->. repeat split.
Qed.

(** *** Acknowledgements and refusals *)

(** X5. A request that is answered with a failure has changed nothing, and
    the failure acknowledgement is all that was sent. *)
Theorem failure_changes_nothing
    (srv srv' : Server) (socket : string) (r : Request) (out : list Emission)
    (error : string) :
  handle srv socket r = Done srv' out ->
  In (Callback socket (Failure error)) out ->
  srv' = srv /\ out = [Callback socket (Failure error)].
Proof.
  intros Hh Hin.
  destruct r as [d uuid now|sid|sid image fd|sid image fd name now]; simpl in Hh.
  - unfold create_session in Hh. injection Hh as <- <-.
    destruct Hin as [Hin|[]]. discriminate.
  - unfold join_session in Hh.
    destruct (sessions srv !! sid) as [s|]; [destruct (Nat.leb _ _)|];
      injection Hh as <- <-.
    + destruct Hin as [Hin|[]]. injection Hin as <-. split; reflexivity.
    + destruct Hin as [Hin|[Hin|[]]]; discriminate.
    + destruct Hin as [Hin|[]]. injection Hin as <-. split; reflexivity.
  - unfold upload_reference_image in Hh.
    destruct (sessions srv !! sid) as [s|]; [destruct (negb _)|];
      injection Hh as <- <-.
    + destruct Hin as [Hin|[]]. injection Hin as <-. split; reflexivity.
    + destruct Hin as [Hin|[]]. discriminate.
    + destruct Hin as [Hin|[]]. injection Hin as <-. split; reflexivity.
  - apply upload_participant_image_inv in Hh
      as [(e & -> & ->)|(s & reference & descriptor & distance & _ & _ & _ & _ & _
                         & _ & _ & ->)].
    + destruct Hin as [Hin|[]]. injection Hin as <-. split; reflexivity.
    + exfalso. destruct Hin as [Hin|[Hin|Hin]]; [discriminate..|].
      destruct (nlt distance nthreshold); [destruct Hin as [Hin|[]]; discriminate|].
      destruct Hin.
Qed.

(** X6. A request that was handled to its end was acknowledged exactly once:
    the acknowledgement goes out first, to the calling socket, and nothing
    that follows it is an acknowledgement. *)
Theorem one_acknowledgement
    (srv srv' : Server) (socket : string) (r : Request) (out : list Emission) :
  handle srv socket r = Done srv' out ->
  exists reply rest,
    out = Callback socket reply :: rest
    /\ Forall (fun e => isCallback e = false) rest.
Proof.
  intros Hh.
  destruct r as [d uuid now|sid|sid image fd|sid image fd name now]; simpl in Hh.
  - unfold create_session in Hh. injection Hh as _ <-. eauto.
  - unfold join_session in Hh.
    destruct (sessions srv !! sid) as [s|]; [destruct (Nat.leb _ _)|];
      injection Hh as _ <-; do 2 eexists; (split; [reflexivity|]);
      repeat constructor.
  - unfold upload_reference_image in Hh.
    destruct (sessions srv !! sid) as [s|]; [destruct (negb _)|];
      injection Hh as _ <-; eauto.
  - apply upload_participant_image_inv in Hh
      as [(e & _ & ->)|(s & reference & descriptor & distance & _ & _ & _ & _ & _
                        & _ & _ & ->)]; [eauto|].
    do 2 eexists. split; [reflexivity|].
    destruct (nlt distance nthreshold); repeat constructor.
Qed.

(** X7. Joining creates no participant record and touches no session: after
    any number of connections and joins the sessions map is what it was, so
    joins never use up capacity. *)
Theorem joins_leave_sessions_alone (srv : Server) (inputs : list Input) :
  Forall (fun i => exists socket,
              i = Connection socket
              \/ exists k, i = FromSocket socket (JoinSession k))
         inputs ->
  sessions (fst (run srv inputs)) = sessions srv.
Proof.
  intros Hall. revert srv.
  induction Hall as [|i inputs (socket & Hi) _ IH]; intros srv; simpl;
    [reflexivity|].
  assert (Hstep : exists srv' out,
             step srv i = Done srv' out /\ sessions srv' = sessions srv).
  { destruct Hi as [->|(k & ->)]; simpl.
    - eauto.
    - destruct (sockets srv !! socket); [|eauto].
      simpl. unfold join_session.
      destruct (sessions srv !! k) as [s|]; [destruct (Nat.leb _ _)|]; eauto. }
  destruct Hstep as (srv' & out & -> & Heq).
  specialize (IH srv'). destruct (run srv' inputs). simpl in *. congruence.
Qed.

(** X8. The participant upload never looks at the sockets: whether the
    caller joined the session, or which sockets are connected, makes no
    difference to what is stored and sent. *)
Theorem upload_ignores_sockets
    (srv srv' : Server) (connected : gmap string Socket.t)
    (socket k : string) (image : option string) (fd : list num)
    (name : option string) (now : Z) (out : list Emission) :
  upload_participant_image srv socket k image fd name now = Done srv' out ->
  upload_participant_image (mkServer (sessions srv) connected) socket k image fd
    name now
  = Done (mkServer (sessions srv') connected) out.
Proof.
  unfold upload_participant_image. simpl.
  destruct (sessions srv !! k) as [s|]; [|intros [= <- <-]; reflexivity].
  destruct (negb (truthy _)); [intros [= <- <-]; reflexivity|].
  destruct (Nat.leb _ _); [intros [= <- <-]; reflexivity|].
  destruct (match Session.referenceFaceDescriptor s with
            | Some reference => euclideanDistance reference fd
            | None => Throw TypeError
            end) as [distance|]; [|discriminate].
  intros [= <- <-]. reflexivity.
Qed.

(** *** Disconnection *)

Lemma withoutSocket_spec (socket : string) (participants : list Participant.t)
    (p : Participant.t) :
  In p (withoutSocket socket participants)
  <-> In p participants /\ Participant.socketId p <> socket.
Proof.
  unfold withoutSocket. rewrite filter_In. split.
  - intros [Hin Hne]. split; [exact Hin|].
    destruct (String.eqb_spec (Participant.socketId p) socket); [discriminate|].
    assumption.
  - intros [Hin Hne]. split; [exact Hin|].
    destruct (String.eqb_spec (Participant.socketId p) socket);
      [contradiction | reflexivity].
Qed.

(** X9. When a socket that is not the administrator of its session
    disconnects, every record of that socket is taken out of the session
    and the records of the other sockets stay, in order; the administrator
    is told how many are left.  The session itself is deleted exactly when
    no record is left and the administrator is not connected. *)
Theorem disconnect_participant
    (srv : Server) (socket k : string) (s : Session.t) :
  (sockets srv !! socket) ≫= Socket.sessionId = Some k ->
  k <> "" ->
  sessions srv !! k = Some s ->
  Session.adminId s <> socket ->
  exists srv',
    disconnect srv socket
    = Done srv'
        [IoTo (Session.adminId s)
           (ParticipantLeft
              (length (withoutSocket socket (Session.participants s))))]
    /\ sockets srv' = delete socket (sockets srv)
    /\ (forall p, In p (withoutSocket socket (Session.participants s)) <->
                  In p (Session.participants s)
                  /\ Participant.socketId p <> socket)
    /\ sessions srv' !! k
       = (if decide (withoutSocket socket (Session.participants s) = []
                     /\ sockets srv !! Session.adminId s = None)
          then None
          else Some (setParticipants s
                       (withoutSocket socket (Session.participants s)))).
Proof.
  intros Hsock Hk Hl Hadm. unfold disconnect. rewrite Hsock. simpl.
  destruct (String.eqb_spec k "") as [|_]; [contradiction|]. simpl. rewrite Hl.
  destruct (String.eqb_spec (Session.adminId s) socket) as [|_]; [contradiction|].
  fold (withoutSocket socket (Session.participants s)).
  rewrite lookup_delete_ne by congruence.
  assert (Hgone :
            Nat.eqb (length (withoutSocket socket (Session.participants s))) 0
            && match sockets srv !! Session.adminId s with
               | Some _ => false
               | None => true
               end = true
            <-> withoutSocket socket (Session.participants s) = []
                /\ sockets srv !! Session.adminId s = None).
  { rewrite andb_true_iff, Nat.eqb_eq, length_zero_iff_nil.
    destruct (sockets srv !! Session.adminId s); intuition congruence. }
  destruct (Nat.eqb _ _ && _) eqn:Hdel;
    (eexists; split; [reflexivity|]; simpl; split; [reflexivity|];
     split; [apply withoutSocket_spec|]).
  - rewrite lookup_delete_eq. destruct (decide _) as [_|Hn]; [reflexivity|].
    exfalso. apply Hn, Hgone. reflexivity.
  - rewrite lookup_insert_eq. destruct (decide _) as [Hy|_]; [|reflexivity].
    apply Hgone in Hy. discriminate.
Qed.


(** X11. A disconnection always runs to its end, takes the socket off the
    connected sockets, and leaves every session alone except the one the
    socket last created or joined; a socket that did neither changes no
    session and makes the server send nothing. *)
Theorem disconnect_frame (srv : Server) (socket : string) :
  exists srv' out,
    disconnect srv socket = Done srv' out
    /\ sockets srv' = delete socket (sockets srv)
    /\ (forall k, (sockets srv !! socket) ≫= Socket.sessionId <> Some k ->
                  sessions srv' !! k = sessions srv !! k)
    /\ ((sockets srv !! socket) ≫= Socket.sessionId = None ->
        sessions srv' = sessions srv /\ out = []).
Proof.
  unfold disconnect.
  destruct ((sockets srv !! socket) ≫= Socket.sessionId) as [sid|] eqn:Hsock;
    simpl.
  - destruct (negb (String.eqb sid "")) eqn:Hne; simpl.
    + destruct (sessions srv !! sid) as [s|] eqn:Hl.
      * destruct (_ && _); do 2 eexists; (split; [reflexivity|]); simpl;
          (split; [reflexivity|]); (split; [|discriminate]); intros k Hk.
        -- rewrite lookup_delete_ne by congruence.
           apply lookup_insert_ne. congruence.
        -- apply lookup_insert_ne. congruence.
      * do 2 eexists. split; [reflexivity|]. simpl. split; [reflexivity|].
        split; [reflexivity | discriminate].
    + do 2 eexists. split; [reflexivity|]. simpl. split; [reflexivity|].
      split; [reflexivity | discriminate].
  - do 2 eexists. split; [reflexivity|]. simpl. split; [reflexivity|].
    split; [reflexivity | intros _; split; reflexivity].
Qed.

(** X12. When a socket's [create-session] is followed at once by that
    socket's [disconnect], with no other event of that socket or of the new
    session in between, no session is left behind: the identifier is free
    again, also when the creation had replaced an older session, and the
    other sessions are untouched. *)
Theorem create_then_disconnect
    (srv srv1 : Server) (socket : string) (d : option Z) (uuid : string)
    (now : Z) (out1 : list Emission) :
  create_session srv socket d uuid now = Done srv1 out1 ->
  newSessionId uuid <> "" ->
  exists srv2,
    disconnect srv1 socket
    = Done srv2 [SocketTo socket (newSessionId uuid) AdminDisconnected]
    /\ sessions srv2 = delete (newSessionId uuid) (sessions srv).
Proof.
  intros Hc Hne. unfold create_session in Hc. injection Hc as <- _.
  unfold disconnect. simpl. rewrite lookup_insert_eq. simpl.
  destruct (String.eqb_spec (newSessionId uuid) "") as [|_]; [contradiction|].
  simpl. rewrite lookup_insert_eq. simpl. rewrite String.eqb_refl.
  rewrite lookup_delete_eq. simpl.
  eexists. split; [reflexivity|]. simpl.
  rewrite delete_insert_eq. apply delete_insert_eq.
Qed.

(** *** The sweep and the health count *)

Lemma expired_later (t1 t2 : Z) (s : Session.t) :
  (t1 <= t2)%Z -> expired t1 s = true -> expired t2 s = true.
Proof. unfold expired. rewrite !Z.ltb_lt. lia. Qed.

(** X13. The sweep drops exactly the sessions whose age exceeds their
    duration, a stored duration of [0] counting as thirty minutes; every
    other session stays as it is, and no socket is touched. *)
Theorem cleanup_exact (srv : Server) (now : Z) (k : string) (s : Session.t) :
  sockets (cleanup srv now) = sockets srv
  /\ (sessions (cleanup srv now) !! k = Some s
      <-> sessions srv !! k = Some s
          /\ (now - Session.createdAt s
              <= (if Z.eqb (Session.durationMinutes s) 0 then 30
                  else Session.durationMinutes s) * 60 * 1000)%Z).
Proof.
  split; [reflexivity|]. unfold cleanup; simpl.
  rewrite map_lookup_filter_Some. simpl. unfold expired, sessionDuration.
  rewrite Z.ltb_ge. reflexivity.
Qed.

(** X14. Two sweeps in a row do what the later one does alone. *)
Theorem cleanup_twice (srv : Server) (t1 t2 : Z) :
  (t1 <= t2)%Z -> cleanup (cleanup srv t1) t2 = cleanup srv t2.
Proof.
  intros Hle. unfold cleanup, setSessions. simpl. f_equal.
  apply map_eq. intros k. apply option_eq. intros s.
  rewrite !map_lookup_filter_Some. simpl. split.
  - intros [[Hl _] H2]. split; assumption.
  - intros [Hl H2]. split; [split; [exact Hl|] | exact H2].
    destruct (expired t1 s) eqn:H1; [|reflexivity].
    rewrite (expired_later t1 t2 s Hle H1) in H2. discriminate.
Qed.

(** X15. The body of the [/health] handler, whenever it runs, reports the
    number of stored sessions: a creation raises that number by one when the
    identifier is new and leaves it when the identifier was in use, and a
    sweep never raises it.  Whether a request reaches the handler is not
    part of the statement (see [health]). *)
Theorem health_count
    (srv : Server) (socket : string) (d : option Z) (uuid : string) (now : Z) :
  (exists srv' out,
      create_session srv socket d uuid now = Done srv' out
      /\ health srv'
         = ("ok", match sessions srv !! newSessionId uuid with
                  | Some _ => snd (health srv)
                  | None => S (snd (health srv))
                  end))
  /\ snd (health (cleanup srv now)) <= snd (health srv).
Proof.
  split.
  - unfold create_session. do 2 eexists. split; [reflexivity|].
    unfold health. simpl. f_equal.
    destruct (sessions srv !! newSessionId uuid) as [s|] eqn:Hl.
    + apply map_size_insert_Some. eauto.
    + apply map_size_insert_None. exact Hl.
  - unfold health, cleanup. simpl. apply map_subseteq_size, map_filter_subseteq.
Qed.

End Handlers_more.

(** ** The further properties on the concrete run *)

Lemma capacity_never_exceeded_witness :
  exists s,
    sessions (fst (run emptyServer filled)) !! session1 = Some s
    /\ length (Session.participants s) = 10
    /\ Session.maxParticipants s = 10
    /\ length (Session.participants s) <= Session.maxParticipants s.
Proof.
  eassert (Hl : sessions (fst (run emptyServer filled)) !! session1 = Some _)
    by (vm_compute; reflexivity).
  eexists. split; [exact Hl|]. split; [reflexivity|].
  exact (capacity_never_exceeded (N := Binary64) filled session1 _ Hl).
Defined.

Lemma stored_session_shape_witness :
  exists s,
    sessions (fst (run emptyServer opened)) !! session1 = Some s
    /\ Session.id s = session1
    /\ String.length session1 <= 8
    /\ Session.adminName s = ""
    /\ Forall (fun p => Participant.name p <> ""
                        /\ Participant.matched p
                           = nlt (Participant.matchDistance p) nthreshold)
              (Session.participants s).
Proof.
  eassert (Hl : sessions (fst (run emptyServer opened)) !! session1 = Some _)
    by (vm_compute; reflexivity).
  eexists. split; [exact Hl|].
  exact (stored_session_shape (N := Binary64) opened session1 _ Hl).
Defined.

Lemma wrong_length_upload_witness :
  exists s,
    sessions (fst (run emptyServer opened)) !! session1 = Some s
    /\ Session.referenceFaceDescriptor s = Some [0; 0; 0]%float
    /\ upload_participant_image (fst (run emptyServer opened)) "B" session1
         (Some "b.png") [1; 2]%float None 3000
       = Threw DimensionMismatch
    /\ step (fst (run emptyServer opened))
            (FromSocket "B"
               (UploadParticipantImage session1 (Some "b.png") [1; 2]%float
                  None 3000))
       = Threw DimensionMismatch.
Proof.
  eassert (Hl : sessions (fst (run emptyServer opened)) !! session1 = Some _)
    by (vm_compute; reflexivity).
  eexists. split; [exact Hl|]. split; [reflexivity|].
  split; [|vm_compute; reflexivity].
  refine (proj1 (wrong_length_upload (N := Binary64)
                   (fst (run emptyServer opened)) "B" session1 (Some "b.png")
                   [1; 2]%float None 3000 _ [0; 0; 0]%float Hl eq_refl _) _ _).
  - simpl. lia.
  - reflexivity.
  - simpl. lia.
Defined.

Lemma step_keeps_session_identity_witness :
  exists srv' out s s',
    step (fst (run emptyServer opened))
         (FromSocket "owner"
            (UploadReferenceImage session1 (Some "new.png") [1; 1; 1]%float))
    = Done srv' out
    /\ sessions (fst (run emptyServer opened)) !! session1 = Some s
    /\ sessions srv' !! session1 = Some s'
    /\ Session.referenceImage s' = Some "new.png"
    /\ Session.id s' = Session.id s
    /\ Session.adminId s' = Session.adminId s
    /\ Session.maxParticipants s' = Session.maxParticipants s
    /\ Session.durationMinutes s' = Session.durationMinutes s
    /\ Session.createdAt s' = Session.createdAt s.
Proof.
  eassert (Hs : step (fst (run emptyServer opened))
                  (FromSocket "owner"
                     (UploadReferenceImage session1 (Some "new.png")
                        [1; 1; 1]%float)) = Done _ _)
    by (vm_compute; reflexivity).
  eassert (Hl : sessions (fst (run emptyServer opened)) !! session1 = Some _)
    by (vm_compute; reflexivity).
  match type of Hs with
  | _ = Done ?srv' _ =>
      eassert (Hl' : sessions srv' !! session1 = Some _)
        by (vm_compute; reflexivity)
  end.
  do 4 eexists. split; [exact Hs|]. split; [exact Hl|]. split; [exact Hl'|].
  split; [reflexivity|].
  apply (step_keeps_session_identity (N := Binary64) _ _ _ _ session1 _ _ Hs Hl Hl').
  intros socket d uuid now Hi. discriminate Hi.
Defined.

Lemma failure_changes_nothing_witness :
  exists srv' out,
    handle (fst (run emptyServer opened)) "B" (JoinSession "NOSUCHID")
    = Done srv' out
    /\ In (Callback "B" (Failure SessionNotFound)) out
    /\ srv' = fst (run emptyServer opened)
    /\ out = [Callback "B" (Failure SessionNotFound)].
Proof.
  eassert (Hh : handle (fst (run emptyServer opened)) "B" (JoinSession "NOSUCHID")
                = Done _ _) by (vm_compute; reflexivity).
  do 2 eexists. split; [exact Hh|]. split; [left; reflexivity|].
  apply (failure_changes_nothing (N := Binary64) _ _ "B" _ _ SessionNotFound Hh).
  left. reflexivity.
Defined.

Lemma one_acknowledgement_witness :
  exists srv' out reply rest,
    handle (fst (run emptyServer opened)) "B"
      (UploadParticipantImage session1 (Some "b.png") [0; 0; 0]%float None 3000)
    = Done srv' out
    /\ out = Callback "B" reply :: rest
    /\ length rest = 2
    /\ Forall (fun e => isCallback e = false) rest.
Proof.
  eassert (Hh : handle (fst (run emptyServer opened)) "B"
                  (UploadParticipantImage session1 (Some "b.png")
                     [0; 0; 0]%float None 3000) = Done _ _)
    by (vm_compute; reflexivity).
  destruct (one_acknowledgement (N := Binary64) _ _ _ _ _ Hh)
    as (reply & rest & Hout & Hrest).
  do 2 eexists. exists reply, rest. split; [exact Hh|]. split; [exact Hout|].
  split; [|exact Hrest]. injection Hout as _ <-. reflexivity.
Defined.

Lemma joins_leave_sessions_alone_witness :
  sessions
    (fst (run (fst (run emptyServer opened))
              [Connection "D"; FromSocket "D" (JoinSession session1);
               FromSocket "B" (JoinSession session1)]))
  = sessions (fst (run emptyServer opened)).
Proof.
  apply (joins_leave_sessions_alone (N := Binary64)).
  repeat constructor.
  - exists "D". left. reflexivity.
  - exists "D". right. exists session1. reflexivity.
  - exists "B". right. exists session1. reflexivity.
Defined.

Lemma upload_ignores_sockets_witness :
  exists srv' out,
    upload_participant_image (fst (run emptyServer opened)) "stranger" session1
      (Some "s.png") [0; 0; 0]%float None 3000 = Done srv' out
    /\ upload_participant_image
         (mkServer (sessions (fst (run emptyServer opened))) ∅) "stranger"
         session1 (Some "s.png") [0; 0; 0]%float None 3000
       = Done (mkServer (sessions srv') ∅) out
    /\ In (Callback "stranger" Success) out.
Proof.
  eassert (Hup : upload_participant_image (fst (run emptyServer opened))
                   "stranger" session1 (Some "s.png") [0; 0; 0]%float None 3000
                 = Done _ _) by (vm_compute; reflexivity).
  do 2 eexists. split; [exact Hup|].
  split; [|left; reflexivity].
  exact (upload_ignores_sockets (N := Binary64) _ _ ∅ _ _ _ _ _ _ _ Hup).
Defined.

Lemma disconnect_participant_witness :
  exists s srv',
    sessions (fst (run emptyServer opened)) !! session1 = Some s
    /\ disconnect (fst (run emptyServer opened)) "A"
       = Done srv'
           [IoTo (Session.adminId s)
              (ParticipantLeft
                 (length (withoutSocket "A" (Session.participants s))))]
    /\ withoutSocket "A" (Session.participants s) = []
    /\ sockets srv' = delete "A" (sockets (fst (run emptyServer opened)))
    /\ sessions srv' !! session1 = Some (setParticipants s []).
Proof.
  eassert (Hl : sessions (fst (run emptyServer opened)) !! session1 = Some _)
    by (vm_compute; reflexivity).
  destruct (disconnect_participant (N := Binary64) (fst (run emptyServer opened))
              "A" session1 _ ltac:(vm_compute; reflexivity)
              ltac:(discriminate) Hl ltac:(discriminate))
    as (srv' & Hd & Hsock & _ & Hstored).
  do 2 eexists. split; [exact Hl|]. split; [exact Hd|]. split; [reflexivity|].
  split; [exact Hsock|]. rewrite Hstored.
  destruct (decide _) as [[_ Hgone]|_]; [discriminate Hgone | reflexivity].
Defined.


Lemma create_then_disconnect_witness :
  exists srv1 out1 srv2,
    @create_session Binary64 emptyServer "owner" None uuid1 1000 = Done srv1 out1
    /\ disconnect srv1 "owner"
       = Done srv2 [SocketTo "owner" (newSessionId uuid1) AdminDisconnected]
    /\ sessions srv2 = delete (newSessionId uuid1) (sessions emptyServer)
    /\ sessions srv2 !! session1 = None.
Proof.
  eassert (Hc : @create_session Binary64 emptyServer "owner" None uuid1 1000
                = Done _ _) by reflexivity.
  destruct (create_then_disconnect (N := Binary64) _ _ _ _ _ _ _ Hc
              ltac:(discriminate)) as (srv2 & Hd & Hstored).
  do 2 eexists. exists srv2. split; [exact Hc|]. split; [exact Hd|].
  split; [exact Hstored|]. rewrite Hstored. apply lookup_delete_eq.
Defined.

Lemma cleanup_twice_witness :
  cleanup (cleanup (fst (run emptyServer opened)) 5000) 3000000
  = cleanup (fst (run emptyServer opened)) 3000000
  /\ sessions (cleanup (fst (run emptyServer opened)) 5000) !! session1 <> None
  /\ sessions (cleanup (fst (run emptyServer opened)) 3000000) !! session1 = None.
Proof.
  split; [|split].
  - apply (cleanup_twice (N := Binary64)). lia.
  - vm_compute. discriminate.
  - vm_compute. reflexivity.
Defined.

(** ** Joining *)

Section Joining.
Context {N : JsNumber}.

(** X18. A join is accepted exactly when the session exists and holds fewer
    records than its capacity.  An accepted join marks the socket as a
    non-administrator of that session and tells the administrator the
    current number of records and the capacity; a refused join marks
    nothing. *)
Theorem join_session_admission (srv : Server) (socket k : string) :
  exists srv' out,
    join_session srv socket k = Done srv' out
    /\ (In (Callback socket (SuccessSession k false)) out
        <-> exists s, sessions srv !! k = Some s
                      /\ length (Session.participants s)
                         < Session.maxParticipants s)
    /\ (forall s, sessions srv !! k = Some s ->
          length (Session.participants s) < Session.maxParticipants s ->
          sockets srv' !! socket = Some (Socket.mk (Some k) (Some false))
          /\ In (IoTo (Session.adminId s)
                   (ParticipantJoined (length (Session.participants s))
                      (Session.maxParticipants s))) out)
    /\ (~ In (Callback socket (SuccessSession k false)) out -> srv' = srv).
Proof.
  unfold join_session.
  destruct (sessions srv !! k) as [s|] eqn:Hl.
  - destruct (Nat.leb_spec (Session.maxParticipants s)
                (length (Session.participants s))) as [Hfull|Hroom].
    + do 2 eexists. split; [reflexivity|]. split; [|split].
      * split; [intros [Hin|[]]; discriminate|].
        intros (s0 & [= <-] & Hlt). lia.
      * intros s0 [= <-] Hlt. lia.
      * reflexivity.
    + do 2 eexists. split; [reflexivity|]. split; [|split].
      * split; [eauto|]. intros _. left. reflexivity.
      * intros s0 [= <-] _. simpl. split; [apply lookup_insert_eq|].
        right. left. reflexivity.
      * intros Hnot. exfalso. apply Hnot. left. reflexivity.
  - do 2 eexists. split; [reflexivity|]. split; [|split].
    + split; [intros [Hin|[]]; discriminate|]. intros (s0 & Hs0 & _).
      discriminate.
    + intros s0 Hs0. discriminate.
    + reflexivity.
Qed.

End Joining.

(** ** The two-party server *)

Section TwoPartyServer.
Context {N : JsNumber}.

Lemma compareFaces_inv (srv : TwoParty.Server) (sid : string) :
  TwoParty.compareFaces srv sid = TwoParty.Done srv []
  \/ exists s user1 user2,
       TwoParty.sessions srv !! sid = Some s
       /\ TwoParty.users s = [user1; user2]
       /\ ((exists message,
              euclideanDistance (TwoParty.faceDescriptor user1)
                                (TwoParty.faceDescriptor user2) = Throw message
              /\ TwoParty.compareFaces srv sid = TwoParty.Threw srv [] message)
           \/ (exists distance,
                 euclideanDistance (TwoParty.faceDescriptor user1)
                                   (TwoParty.faceDescriptor user2) = Return distance
                 /\ TwoParty.compareFaces srv sid
                    = TwoParty.Done
                        (TwoParty.mkServer
                           (<[sid := TwoParty.mkSession (TwoParty.id s)
                                       (TwoParty.users s)
                                       (Some (nlt distance nthreshold))
                                       (TwoParty.createdAt s)]>
                              (TwoParty.sessions srv))
                           (TwoParty.sockets srv))
                        [TwoParty.IoTo sid
                           (TwoParty.ComparisonResult (nlt distance nthreshold)
                              distance
                              (if nlt distance nthreshold
                               then Some (TwoParty.image user1,
                                          TwoParty.image user2)
                               else None));
                         TwoParty.SetTimeoutDelete 30000 sid])).
Proof.
  unfold TwoParty.compareFaces.
  destruct (TwoParty.sessions srv !! sid) as [s|] eqn:Hl; [|left; reflexivity].
  destruct (TwoParty.users s) as [|user1 [|user2 [|user3 rest]]] eqn:Hu;
    try (left; reflexivity).
  right. exists s, user1, user2. split; [reflexivity|]. split; [exact Hu|].
  destruct (euclideanDistance _ _) as [distance|message]; [right|left];
    eexists; (split; [reflexivity|]); rewrite ?Hu; reflexivity.
Qed.

Lemma upload_image_length (users users' : list TwoParty.User) (socket : string)
    (image : option string) (fd : list num) :
  TwoParty.upload_image users socket image fd = Some users' ->
  length users <= 2 -> length users' <= 2.
Proof.
  unfold TwoParty.upload_image.
  destruct (TwoParty.findIndex socket users) as [i|].
  - intros [= <-] Hlen. rewrite length_insert. exact Hlen.
  - destruct (Nat.leb_spec 2 (length users)); [discriminate|].
    intros [= <-] _. rewrite length_app. simpl. lia.
Qed.

Lemma upload_image_ready (users users' : list TwoParty.User) (socket : string)
    (image : option string) (fd : list num) :
  TwoParty.upload_image users socket image fd = Some users' ->
  Forall (fun u => TwoParty.ready u = true) users ->
  Forall (fun u => TwoParty.ready u = true) users'.
Proof.
  unfold TwoParty.upload_image.
  destruct (TwoParty.findIndex socket users) as [i|].
  - intros [= <-] Hall. apply Forall_insert; [exact Hall | reflexivity].
  - destruct (Nat.leb 2 (length users)); [discriminate|].
    intros [= <-] Hall. apply Forall_app. split; [exact Hall|].
    constructor; [reflexivity | constructor].
Qed.

Lemma upload_image_member (users users' : list TwoParty.User) (socket : string)
    (image : option string) (fd : list num) :
  TwoParty.upload_image users socket image fd = Some users' ->
  In (TwoParty.mkUser socket image fd true) users'.
Proof.
  unfold TwoParty.upload_image.
  destruct (TwoParty.findIndex socket users) as [i|] eqn:Hf.
  - intros [= <-]. apply findIndex_Some in Hf as (u & Hl & _).
    apply list_elem_of_In, list_elem_of_lookup. exists i.
    apply list_lookup_insert_eq. eapply lookup_lt_Some. exact Hl.
  - destruct (Nat.leb 2 (length users)); [discriminate|].
    intros [= <-]. apply in_or_app. right. left. reflexivity.
Qed.

(** The sessions a step leaves in the store: untouched ones, a fresh one, or
    one whose users array was rewritten by an upload or a disconnection. *)
Lemma two_party_step_origin (srv : TwoParty.Server) (i : TwoParty.Input)
    (k : string) (s' : TwoParty.Session) :
  TwoParty.sessions (TwoParty.stateOf (TwoParty.step srv i)) !! k = Some s' ->
  TwoParty.sessions srv !! k = Some s'
  \/ (TwoParty.users s' = [] /\ TwoParty.id s' = k)
  \/ (exists s,
        TwoParty.sessions srv !! k = Some s
        /\ TwoParty.id s' = TwoParty.id s
        /\ TwoParty.createdAt s' = TwoParty.createdAt s
        /\ (TwoParty.users s' = TwoParty.users s
            \/ (exists socket image fd,
                  TwoParty.upload_image (TwoParty.users s) socket image fd
                  = Some (TwoParty.users s'))
            \/ (exists socket,
                  TwoParty.users s'
                  = List.filter
                      (fun u => negb (String.eqb (TwoParty.socketId u) socket))
                      (TwoParty.users s)))).
Proof.
  destruct i as [socket|socket uuid now|socket sid|socket sid image fd|socket|now|sid];
    simpl.
  - intros Hl'. left. exact Hl'.
  - intros Hl'.
    destruct (decide (toUpperCase (String.substring 0 8 uuid) = k)) as [<-|Hne].
    + rewrite lookup_insert_eq in Hl'. injection Hl' as <-. right. left.
      split; reflexivity.
    + rewrite lookup_insert_ne in Hl' by exact Hne. left. exact Hl'.
  - unfold TwoParty.join_session.
    destruct (TwoParty.sessions srv !! sid); [destruct (Nat.leb _ _)|];
      simpl; intros Hl'; left; exact Hl'.
  - unfold TwoParty.upload_image_handler.
    destruct (TwoParty.sessions srv !! sid) as [s|] eqn:Hl;
      [|simpl; intros Hl'; left; exact Hl'].
    destruct (TwoParty.upload_image (TwoParty.users s) socket image fd)
      as [users'|] eqn:Hu; [|simpl; intros Hl'; left; exact Hl'].
    set (srv1 := TwoParty.mkServer
                   (<[sid := TwoParty.mkSession (TwoParty.id s) users'
                               (TwoParty.matched s) (TwoParty.createdAt s)]>
                      (TwoParty.sessions srv)) (TwoParty.sockets srv)).
    assert (Hsrv1 : forall s1,
               TwoParty.sessions srv1 !! k = Some s1 ->
               TwoParty.sessions srv !! k = Some s1
               \/ (TwoParty.sessions srv !! k = Some s
                   /\ TwoParty.id s1 = TwoParty.id s
                   /\ TwoParty.createdAt s1 = TwoParty.createdAt s
                   /\ TwoParty.users s1 = users')).
    { intros s1 Hs1. simpl in Hs1. destruct (decide (sid = k)) as [<-|Hne].
      - rewrite lookup_insert_eq in Hs1. injection Hs1 as <-. right. auto.
      - rewrite lookup_insert_ne in Hs1 by exact Hne. left. exact Hs1. }
    assert (Hfinal : forall srv2,
               (srv2 = srv1
                \/ exists s1 m,
                     TwoParty.sessions srv1 !! sid = Some s1
                     /\ srv2 = TwoParty.mkServer
                                 (<[sid := TwoParty.mkSession (TwoParty.id s1)
                                             (TwoParty.users s1) m
                                             (TwoParty.createdAt s1)]>
                                    (TwoParty.sessions srv1))
                                 (TwoParty.sockets srv1)) ->
               TwoParty.sessions srv2 !! k = Some s' ->
               TwoParty.sessions srv !! k = Some s'
               \/ (TwoParty.sessions srv !! k = Some s
                   /\ TwoParty.id s' = TwoParty.id s
                   /\ TwoParty.createdAt s' = TwoParty.createdAt s
                   /\ TwoParty.users s' = users')).
    { intros srv2 [->|(s1 & m & Hs1 & ->)] Hl'; [exact (Hsrv1 _ Hl')|].
      simpl in Hl'. destruct (decide (sid = k)) as [<-|Hne].
      - rewrite lookup_insert_eq in Hl'. injection Hl' as <-.
        simpl in Hs1. rewrite lookup_insert_eq in Hs1. injection Hs1 as <-.
        right. simpl. auto.
      - rewrite !lookup_insert_ne in Hl' by exact Hne. left. exact Hl'. }
    assert (Hwrap : forall srv2,
               TwoParty.sessions srv2 !! k = Some s' ->
               (srv2 = srv1
                \/ exists s1 m,
                     TwoParty.sessions srv1 !! sid = Some s1
                     /\ srv2 = TwoParty.mkServer
                                 (<[sid := TwoParty.mkSession (TwoParty.id s1)
                                             (TwoParty.users s1) m
                                             (TwoParty.createdAt s1)]>
                                    (TwoParty.sessions srv1))
                                 (TwoParty.sockets srv1)) ->
               TwoParty.sessions srv !! k = Some s'
               \/ (TwoParty.users s' = [] /\ TwoParty.id s' = k)
               \/ (exists s0,
                     TwoParty.sessions srv !! k = Some s0
                     /\ TwoParty.id s' = TwoParty.id s0
                     /\ TwoParty.createdAt s' = TwoParty.createdAt s0
                     /\ (TwoParty.users s' = TwoParty.users s0
                         \/ (exists socket image fd,
                               TwoParty.upload_image (TwoParty.users s0) socket
                                 image fd = Some (TwoParty.users s'))
                         \/ (exists socket,
                               TwoParty.users s'
                               = List.filter
                                   (fun u => negb (String.eqb
                                                     (TwoParty.socketId u) socket))
                                   (TwoParty.users s0))))).
    { intros srv2 Hl' Hcase.
      destruct (Hfinal srv2 Hcase Hl') as [?|(? & ? & ? & Hus)];
        [left; assumption|].
      right. right. exists s. repeat (split; [assumption|]).
      right. left. exists socket, image, fd. rewrite Hus. exact Hu. }
    fold srv1.
    destruct (Nat.eqb (length users') 2 && forallb TwoParty.ready users');
      [|cbn [TwoParty.stateOf]; intros Hl'; apply (Hwrap srv1 Hl'); left;
        reflexivity].
    destruct (compareFaces_inv srv1 sid)
      as [Hc|(s1 & u1 & u2 & Hs1 & _ & [(msg & _ & Hc)|(d & _ & Hc)])];
      rewrite Hc; cbn [TwoParty.stateOf]; intros Hl'.
    + apply (Hwrap srv1 Hl'). left. reflexivity.
    + apply (Hwrap srv1 Hl'). left. reflexivity.
    + apply (Hwrap _ Hl'). right. exists s1, (Some (nlt d nthreshold)).
      split; [exact Hs1 | reflexivity].
  - unfold TwoParty.disconnect.
    destruct (negb (truthy _)); [simpl; intros Hl'; left; exact Hl'|].
    set (sid := default "" _).
    destruct (TwoParty.sessions srv !! sid) as [s|] eqn:Hl;
      [|simpl; intros Hl'; left; exact Hl'].
    assert (Hins : forall stored,
               stored = <[sid := TwoParty.mkSession (TwoParty.id s)
                                   (List.filter
                                      (fun u => negb (String.eqb
                                                        (TwoParty.socketId u) socket))
                                      (TwoParty.users s))
                                   (TwoParty.matched s) (TwoParty.createdAt s)]>
                          (TwoParty.sessions srv) ->
               stored !! k = Some s' ->
               TwoParty.sessions srv !! k = Some s'
               \/ (TwoParty.sessions srv !! k = Some s
                   /\ s' = TwoParty.mkSession (TwoParty.id s)
                             (List.filter
                                (fun u => negb (String.eqb
                                                  (TwoParty.socketId u) socket))
                                (TwoParty.users s))
                             (TwoParty.matched s) (TwoParty.createdAt s))).
    { intros stored -> Hlk. destruct (decide (sid = k)) as [Heq|Hne].
      - rewrite Heq in Hlk, Hl. rewrite lookup_insert_eq in Hlk.
        injection Hlk as <-. right. auto.
      - rewrite lookup_insert_ne in Hlk by exact Hne. left. exact Hlk. }
    destruct (Nat.eqb _ 0); simpl; intros Hl'.
    + apply lookup_delete_Some in Hl' as [_ Hl'].
      destruct (Hins _ eq_refl Hl') as [?|(? & ->)]; [left; assumption|].
      right. right. exists s. simpl. repeat (split; [assumption || reflexivity|]).
      right. right. exists socket. reflexivity.
    + destruct (Hins _ eq_refl Hl') as [?|(? & ->)]; [left; assumption|].
      right. right. exists s. simpl. repeat (split; [assumption || reflexivity|]).
      right. right. exists socket. reflexivity.
  - intros Hl'. apply map_lookup_filter_Some in Hl' as [Hl' _]. left. exact Hl'.
  - intros Hl'. apply lookup_delete_Some in Hl' as [_ Hl']. left. exact Hl'.
Qed.

Lemma two_party_run_invariant (P : string -> TwoParty.Session -> Prop) :
  (forall srv i,
      map_Forall P (TwoParty.sessions srv) ->
      map_Forall P (TwoParty.sessions (TwoParty.stateOf (TwoParty.step srv i)))) ->
  forall inputs srv,
    map_Forall P (TwoParty.sessions srv) ->
    map_Forall P (TwoParty.sessions (fst (TwoParty.run srv inputs))).
Proof.
  intros Hstep inputs. induction inputs as [|i inputs IH]; intros srv HP; simpl;
    [exact HP|].
  specialize (IH _ (Hstep srv i HP)).
  destruct (TwoParty.run (TwoParty.stateOf (TwoParty.step srv i)) inputs).
  exact IH.
Qed.

Lemma NoDup_map_filter {A B : Type} (f : A -> B) (g : A -> bool) (l : list A) :
  List.NoDup (map f l) -> List.NoDup (map f (List.filter g l)).
Proof.
  induction l as [|x l IH]; simpl; [trivial|].
  intros Hnd. inversion Hnd as [|y l' Hnotin Hrest]; subst.
  destruct (g x); simpl; [|exact (IH Hrest)].
  constructor; [|exact (IH Hrest)].
  intros Hin. apply Hnotin. apply in_map_iff in Hin as (z & Hz & Hzin).
  apply filter_In in Hzin as [Hzin _]. apply in_map_iff. eauto.
Qed.

(** X19. However the two-party server got where it is, a stored session
    sits under its own id and holds at most two user records, of pairwise
    different sockets, all of them ready. *)
Theorem two_party_users_invariant
    (inputs : list TwoParty.Input) (k : string) (s : TwoParty.Session) :
  TwoParty.sessions (fst (TwoParty.run TwoParty.emptyServer inputs)) !! k = Some s ->
  TwoParty.id s = k
  /\ length (TwoParty.users s) <= 2
  /\ List.NoDup (map TwoParty.socketId (TwoParty.users s))
  /\ Forall (fun u => TwoParty.ready u = true) (TwoParty.users s).
Proof.
  revert k s.
  apply (two_party_run_invariant
           (fun k s => TwoParty.id s = k
                       /\ length (TwoParty.users s) <= 2
                       /\ List.NoDup (map TwoParty.socketId (TwoParty.users s))
                       /\ Forall (fun u => TwoParty.ready u = true)
                                 (TwoParty.users s)));
    [|apply map_Forall_empty].
  intros srv i HP k s' Hl'.
  destruct (two_party_step_origin srv i k s' Hl')
    as [Hl|[(Hu & Hid)|(s & Hl & Hid & _ & Hcase)]].
  - exact (HP _ _ Hl).
  - rewrite Hu. simpl. repeat split; [exact Hid | lia | constructor | constructor].
  - destruct (HP _ _ Hl) as (Hk & Hlen & Hnd & Hready).
    split; [congruence|].
    destruct Hcase as [->|[(socket & image & fd & Hup)|(socket & ->)]].
    + auto.
    + split; [exact (upload_image_length _ _ _ _ _ Hup Hlen)|].
      split; [exact (two_party_upload_keeps_sockets_unique _ _ _ _ _ Hnd Hup)|].
      exact (upload_image_ready _ _ _ _ _ Hup Hready).
    + split; [|split].
      * pose proof (filter_length_le
                      (fun u => negb (String.eqb (TwoParty.socketId u) socket))
                      (TwoParty.users s)). lia.
      * apply NoDup_map_filter. exact Hnd.
      * apply Forall_filter_keep. exact Hready.
Qed.


(** X21. When an upload completes a two-party session with two ready
    records whose descriptors are arrays of different lengths, the handler
    throws the dimension-mismatch error after it stored the upload and
    acknowledged it: the session holds both records, its verdict is the one
    it had, and the acknowledgement and [user-ready] are all that was sent;
    no comparison result, no deletion timer. *)
Theorem two_party_mismatch_throws_after_storing
    (srv : TwoParty.Server) (socket sid : string) (image : option string)
    (fd : list num) (s : TwoParty.Session) (user1 user2 : TwoParty.User) :
  TwoParty.sessions srv !! sid = Some s ->
  TwoParty.upload_image (TwoParty.users s) socket image fd = Some [user1; user2] ->
  TwoParty.ready user1 = true ->
  TwoParty.ready user2 = true ->
  length (TwoParty.faceDescriptor user1) <> length (TwoParty.faceDescriptor user2) ->
  TwoParty.upload_image_handler srv socket sid image fd
  = TwoParty.Threw
      (TwoParty.mkServer
         (<[sid := TwoParty.mkSession (TwoParty.id s) [user1; user2]
                     (TwoParty.matched s) (TwoParty.createdAt s)]>
            (TwoParty.sessions srv))
         (TwoParty.sockets srv))
      [TwoParty.Callback socket TwoParty.Ok;
       TwoParty.IoTo sid (TwoParty.UserReady 2 2)]
      DimensionMismatch.
Proof.
  intros Hl Hu Hr1 Hr2 Hne. unfold TwoParty.upload_image_handler.
  rewrite Hl, Hu. simpl. rewrite Hr1, Hr2. simpl.
  unfold TwoParty.compareFaces. simpl. rewrite lookup_insert_eq. simpl.
  rewrite (euclideanDistance_guard _ _ Hne). reflexivity.
Qed.

(** X22. When a socket of the two-party server disconnects, its record is
    taken out of the session it last created or joined and the room is told
    how many records are left; the session is deleted exactly when none is
    left, whoever else may have joined. *)
Theorem two_party_disconnect
    (srv : TwoParty.Server) (socket k : string) (s : TwoParty.Session) :
  TwoParty.sockets srv !! socket = Some (Some k) ->
  k <> "" ->
  TwoParty.sessions srv !! k = Some s ->
  exists srv' remaining,
    remaining
    = List.filter (fun u => negb (String.eqb (TwoParty.socketId u) socket))
                  (TwoParty.users s)
    /\ TwoParty.disconnect srv socket
       = TwoParty.Done srv' [TwoParty.IoTo k (TwoParty.UserLeft (length remaining))]
    /\ TwoParty.sockets srv' = delete socket (TwoParty.sockets srv)
    /\ Forall (fun u => TwoParty.socketId u <> socket) remaining
    /\ TwoParty.sessions srv' !! k
       = match remaining with
         | [] => None
         | _ :: _ =>
             Some (TwoParty.mkSession (TwoParty.id s) remaining
                     (TwoParty.matched s) (TwoParty.createdAt s))
         end.
Proof.
  intros Hsock Hk Hl. unfold TwoParty.disconnect. rewrite Hsock. simpl.
  destruct (String.eqb_spec k "") as [|_]; [contradiction|]. simpl. rewrite Hl.
  assert (Hrem : Forall (fun u => TwoParty.socketId u <> socket)
                   (List.filter
                      (fun u => negb (String.eqb (TwoParty.socketId u) socket))
                      (TwoParty.users s))).
  { apply List.Forall_forall. intros u Hu. apply filter_In in Hu as [_ Hu].
    destruct (String.eqb_spec (TwoParty.socketId u) socket); [discriminate|].
    assumption. }
  destruct (List.filter _ (TwoParty.users s)) as [|u rest] eqn:Hf; simpl.
  - do 2 eexists. split; [reflexivity|]. split; [reflexivity|]. simpl.
    split; [reflexivity|]. split; [constructor|]. apply lookup_delete_eq.
  - do 2 eexists. split; [reflexivity|]. split; [reflexivity|]. simpl.
    split; [reflexivity|]. split; [exact Hrem|]. apply lookup_insert_eq.
Qed.

End TwoPartyServer.

(** ** The two-party properties on a concrete run *)

Lemma two_party_users_invariant_witness :
  exists s,
    TwoParty.sessions (fst (TwoParty.run TwoParty.emptyServer duoCompared))
      !! session1 = Some s
    /\ map TwoParty.socketId (TwoParty.users s) = ["u1"; "u2"]
    /\ TwoParty.id s = session1
    /\ length (TwoParty.users s) <= 2
    /\ List.NoDup (map TwoParty.socketId (TwoParty.users s))
    /\ Forall (fun u => TwoParty.ready u = true) (TwoParty.users s).
Proof.
  eassert (Hl : TwoParty.sessions
                  (fst (TwoParty.run TwoParty.emptyServer duoCompared))
                !! session1 = Some _) by (vm_compute; reflexivity).
  eexists. split; [exact Hl|]. split; [reflexivity|].
  exact (two_party_users_invariant (N := Binary64) duoCompared session1 _ Hl).
Defined.


Lemma two_party_mismatch_throws_after_storing_witness :
  exists s,
    TwoParty.sessions (fst (TwoParty.run TwoParty.emptyServer duo)) !! session1
    = Some s
    /\ TwoParty.upload_image_handler (fst (TwoParty.run TwoParty.emptyServer duo))
         "u2" session1 (Some "two.png") [1; 2]%float
       = TwoParty.Threw
           (TwoParty.mkServer
              (<[session1 :=
                   TwoParty.mkSession (TwoParty.id s)
                     [ TwoParty.mkUser "u1" (Some "one.png") [0; 0; 0]%float true;
                       TwoParty.mkUser "u2" (Some "two.png") [1; 2]%float true ]
                     (TwoParty.matched s) (TwoParty.createdAt s)]>
                 (TwoParty.sessions (fst (TwoParty.run TwoParty.emptyServer duo))))
              (TwoParty.sockets (fst (TwoParty.run TwoParty.emptyServer duo))))
           [TwoParty.Callback "u2" TwoParty.Ok;
            TwoParty.IoTo session1 (TwoParty.UserReady 2 2)]
           DimensionMismatch.
Proof.
  eassert (Hl : TwoParty.sessions (fst (TwoParty.run TwoParty.emptyServer duo))
                !! session1 = Some _) by (vm_compute; reflexivity).
  eexists. split; [exact Hl|].
  apply (two_party_mismatch_throws_after_storing (N := Binary64)
           (fst (TwoParty.run TwoParty.emptyServer duo)) "u2" session1
           (Some "two.png") [1; 2]%float _
           (@TwoParty.mkUser Binary64 "u1" (Some "one.png") [0; 0; 0]%float true)
           (@TwoParty.mkUser Binary64 "u2" (Some "two.png") [1; 2]%float true) Hl).
  - reflexivity.
  - reflexivity.
  - reflexivity.
  - simpl. lia.
Defined.

Lemma two_party_disconnect_witness :
  exists srv',
    TwoParty.disconnect (fst (TwoParty.run TwoParty.emptyServer duo)) "u1"
    = TwoParty.Done srv' [TwoParty.IoTo session1 (TwoParty.UserLeft 0)]
    /\ TwoParty.sessions srv' !! session1 = None
    /\ TwoParty.sockets srv' !! "u2" = Some (Some session1).
Proof.
  eassert (Hl : TwoParty.sessions (fst (TwoParty.run TwoParty.emptyServer duo))
                !! session1 = Some _) by (vm_compute; reflexivity).
  destruct (two_party_disconnect (N := Binary64)
              (fst (TwoParty.run TwoParty.emptyServer duo)) "u1" session1 _
              ltac:(vm_compute; reflexivity) ltac:(discriminate) Hl)
    as (srv' & remaining & Hrem & Hd & Hsock & _ & Hstored).
  assert (Hnil : remaining = []) by (rewrite Hrem; reflexivity).
  rewrite Hnil in Hd, Hstored.
  exists srv'. split; [exact Hd|]. split; [exact Hstored|].
  rewrite Hsock. vm_compute. reflexivity.
Defined.
